(** * Lesson-booking bot: reservation ledger, reminders and migrations

    A shallow embedding of [db.py], [migrations.py] and the booking and
    reminder handlers of [bot.py], with the properties of the slot ledger,
    the closed-date registry, the reminder ledger and dispatcher and the
    migration runner stated and proved over it.

    Conventions.
    - A table is the list of its rows in rowid order; a table with a
      [PRIMARY KEY] written with [INSERT OR REPLACE] is a finite map.
    - [datetime.now(...)] is an argument of the operation that reads it.
    - Every [db.py] operation runs under the module lock [_lock], so an
      operation is one atomic state transformer; store failures
      ([sqlite3.Error]) are outside the model.
    - [datetime.fromisoformat] and [datetime.strptime] are library code:
      the operations are parametric in them (class [PyDatetime]) and a
      concrete instance, [py_datetime], is used to evaluate examples. *)

From Stdlib Require Import ZArith String Ascii List Bool Lia.
From stdpp Require Import base option list gmap strings sorting.

Open Scope Z_scope.

(** ** Time *)

Module Time.

Definition usec_per_sec : Z := 1000000.
Definition usec_per_min : Z := 60 * usec_per_sec.
Definition usec_per_hour : Z := 60 * usec_per_min.
Definition usec_per_day : Z := 24 * usec_per_hour.

(** A Python [datetime]: the wall-clock reading, in microseconds counted
    from 1970-01-01T00:00:00 of the proleptic Gregorian calendar, and
    [tzinfo]: [None] for a naive value, [Some off] for an aware value
    whose UTC offset is [off] microseconds. *)
Record datetime := DateTime { wall : Z; tzinfo : option Z }.

#[global] Instance datetime_eq_dec : EqDecision datetime.
Proof. solve_decision. Defined.

Definition is_aware (d : datetime) : bool := bool_decide (is_Some (tzinfo d)).

(** The UTC instant of a value (a naive value is read as UTC). *)
Definition instant (d : datetime) : Z := wall d - default 0 (tzinfo d).

Definition utc := Some 0.

(** [datetime.now(pytz.utc)] when the clock reads [clock]. *)
Definition now_utc (clock : Z) : datetime := DateTime clock utc.

(** [pytz.utc.localize(d)] on a naive [d]. *)
Definition localize_utc (d : datetime) : datetime := DateTime (wall d) utc.


(** [d.astimezone(tz)] for an aware [d] and a zone of offset [off]. *)
Definition astimezone (off : Z) (d : datetime) : datetime :=
  DateTime (instant d + off) (Some off).

(** [d + timedelta(microseconds=us)]: the zone is kept. *)
Definition add_usec (d : datetime) (us : Z) : datetime :=
  DateTime (wall d + us) (tzinfo d).

(** Ordering of two datetimes: naive with naive by wall clock, aware with
    aware by instant, and [None] (a [TypeError]) for a mixed pair. *)
Definition dt_compare (a b : datetime) : option comparison :=
  match tzinfo a, tzinfo b with
  | None, None => Some (wall a ?= wall b)
  | Some _, Some _ => Some (instant a ?= instant b)
  | _, _ => None
  end.

Definition dt_lt (a b : datetime) : option bool :=
  c ← dt_compare a b; Some (match c with Lt => true | _ => false end).
Definition dt_le (a b : datetime) : option bool :=
  c ← dt_compare a b; Some (match c with Gt => false | _ => true end).
Definition dt_gt (a b : datetime) : option bool := dt_lt b a.
Definition dt_ge (a b : datetime) : option bool := dt_le b a.

(** *** Calendar *)

(** Days from 1970-01-01 to the civil date [y]-[m]-[d]. *)
Definition days_from_civil (y m d : Z) : Z :=
  let y' := if m <=? 2 then y - 1 else y in
  let era := y' `div` 400 in
  let yoe := y' - era * 400 in
  let mp := if 2 <? m then m - 3 else m + 9 in
  let doy := (153 * mp + 2) `div` 5 + d - 1 in
  let doe := yoe * 365 + yoe `div` 4 - yoe `div` 100 + doy in
  era * 146097 + doe - 719468.

(** The civil date, [(y, m, d)], of a day number. *)
Definition civil_from_days (z : Z) : Z * Z * Z :=
  let z' := z + 719468 in
  let era := z' `div` 146097 in
  let doe := z' - era * 146097 in
  let yoe := (doe - doe `div` 1460 + doe `div` 36524 - doe `div` 146096) `div` 365 in
  let doy := doe - (365 * yoe + yoe `div` 4 - yoe `div` 100) in
  let mp := (5 * doy + 2) `div` 153 in
  let d := doy - (153 * mp + 2) `div` 5 + 1 in
  let m := if mp <? 10 then mp + 3 else mp - 9 in
  ((yoe + era * 400 + (if m <=? 2 then 1 else 0)), m, d).

Definition is_leap (y : Z) : bool :=
  (y `mod` 4 =? 0) && (negb (y `mod` 100 =? 0) || (y `mod` 400 =? 0)).

Definition days_in_month (y m : Z) : Z :=
  if m =? 2 then (if is_leap y then 29 else 28)
  else if (m =? 4) || (m =? 6) || (m =? 9) || (m =? 11) then 30 else 31.

(** [datetime(y, m, d, hh, mm, ss, us)]: [None] stands for the
    [ValueError] of a field out of range. *)
Definition make (y m d hh mm ss us : Z) (tz : option Z) : option datetime :=
  if (1 <=? y) && (y <=? 9999) && (1 <=? m) && (m <=? 12)
     && (1 <=? d) && (d <=? days_in_month y m)
     && (0 <=? hh) && (hh <? 24) && (0 <=? mm) && (mm <? 60)
     && (0 <=? ss) && (ss <? 60) && (0 <=? us) && (us <? usec_per_sec)
  then Some (DateTime (days_from_civil y m d * usec_per_day
                       + hh * usec_per_hour + mm * usec_per_min
                       + ss * usec_per_sec + us) tz)
  else None.

(** The day number of the wall clock, and [d.weekday()] (Monday is 0;
    1970-01-01 was a Thursday). *)
Definition day_of (d : datetime) : Z := wall d `div` usec_per_day.
Definition weekday (d : datetime) : Z := (day_of d + 3) `mod` 7.

(** [d.replace(hour=0, minute=0, second=0, microsecond=0)]. *)
Definition at_midnight (d : datetime) : datetime :=
  DateTime (day_of d * usec_per_day) (tzinfo d).

End Time.

(** ** Timestamp text *)

(** The two library parsers the code calls: [datetime.fromisoformat(s)]
    and [datetime.strptime(s, '%Y-%m-%dT%H:%M:%S')]. [None] stands for
    the exception they raise on text they do not accept, as
    [fromisoformat] does on the empty text. *)
Class PyDatetime := {
  fromisoformat : string → option Time.datetime;
  strptime_T : string → option Time.datetime;
  fromisoformat_empty : fromisoformat EmptyString = None
}.

Module Iso.
Import Time.

Definition digit_val (c : ascii) : option Z :=
  let n := Z.of_N (N_of_ascii c) in
  if (48 <=? n) && (n <=? 57) then Some (n - 48) else None.

Definition digit_char (n : Z) : ascii := ascii_of_N (Z.to_N (48 + n `mod` 10)).

(** Exactly [k] decimal digits. *)
Fixpoint digits (k : nat) (acc : Z) (s : string) : option (Z * string) :=
  match k with
  | O => Some (acc, s)
  | S k' =>
      match s with
      | String c s' => v ← digit_val c; digits k' (10 * acc + v) s'
      | EmptyString => None
      end
  end.

Definition expect (c : ascii) (s : string) : option string :=
  match s with
  | String c' s' => if Ascii.eqb c c' then Some s' else None
  | EmptyString => None
  end.

(** [n] written with [k] digits, zero padded. *)
Fixpoint pad (k : nat) (n : Z) (rest : string) : string :=
  match k with
  | O => rest
  | S k' => pad k' (n `div` 10) (String (digit_char n) rest)
  end.

(** *** [datetime.isoformat] *)

Definition offset_text (tz : option Z) : string :=
  match tz with
  | None => ""
  | Some off =>
      let a := Z.abs off `div` usec_per_sec in
      let hh := a `div` 3600 in
      let mm := (a `mod` 3600) `div` 60 in
      let ss := a `mod` 60 in
      String (if off <? 0 then "-"%char else "+"%char)
        (pad 2 hh (String ":" (pad 2 mm
           (if ss =? 0 then "" else String ":" (pad 2 ss "")))))
  end.

Definition isoformat (d : datetime) : string :=
  let '(y, m, dd) := civil_from_days (day_of d) in
  let tod := wall d `mod` usec_per_day in
  let hh := tod `div` usec_per_hour in
  let mm := (tod `mod` usec_per_hour) `div` usec_per_min in
  let ss := (tod `mod` usec_per_min) `div` usec_per_sec in
  let us := tod `mod` usec_per_sec in
  let frac := if us =? 0 then EmptyString else String "." (pad 6 us EmptyString) in
  let time_text :=
    pad 2 hh (String ":" (pad 2 mm (String ":" (pad 2 ss
      (String.append frac (offset_text (tzinfo d))))))) in
  pad 4 y (String "-" (pad 2 m (String "-" (pad 2 dd (String "T" time_text))))).

(** *** [datetime.fromisoformat]

    The grammar of CPython 3.7 to 3.10:
    [YYYY-MM-DD[*HH[:MM[:SS[.fff[fff]]]][(+|-)HH:MM[:SS]]]], where [*] is
    any one character. Later versions accept this grammar and more. *)

(** [HH[:MM[:SS[.fff[fff]]]]] up to the end of the text. *)
Definition parse_hh_mm_ss_ff (s : string) : option (Z * Z * Z * Z) :=
  '(hh, s) ← digits 2 0 s;
  match s with
  | EmptyString => Some (hh, 0, 0, 0)
  | String ":" s =>
      '(mm, s) ← digits 2 0 s;
      match s with
      | EmptyString => Some (hh, mm, 0, 0)
      | String ":" s =>
          '(ss, s) ← digits 2 0 s;
          match s with
          | EmptyString => Some (hh, mm, ss, 0)
          | String "." s =>
              if Nat.eqb (String.length s) 6 then
                '(us, _) ← digits 6 0 s; Some (hh, mm, ss, us)
              else if Nat.eqb (String.length s) 3 then
                '(ms, _) ← digits 3 0 s; Some (hh, mm, ss, ms * 1000)
              else None
          | _ => None
          end
      | _ => None
      end
  | _ => None
  end.

(** The time text is cut at its first sign character. *)
Fixpoint split_tz (s : string) : string * option (bool * string) :=
  match s with
  | EmptyString => (EmptyString, None)
  | String c s' =>
      if Ascii.eqb c "+" then (EmptyString, Some (false, s'))
      else if Ascii.eqb c "-" then (EmptyString, Some (true, s'))
      else let '(t, z) := split_tz s' in (String c t, z)
  end.

(** [(+|-)HH:MM[:SS]], strictly inside one day. *)
Definition parse_tz (neg : bool) (s : string) : option Z :=
  if Nat.eqb (String.length s) 5 || Nat.eqb (String.length s) 8 then
    '(hh, mm, ss, _) ← parse_hh_mm_ss_ff s;
    if (mm <? 60) && (ss <? 60) && (hh * 3600 + mm * 60 + ss <? 86400) then
      let off := (hh * 3600 + mm * 60 + ss) * usec_per_sec in
      Some (if neg then - off else off)
    else None
  else None.

Definition parse_iso (s : string) : option datetime :=
  '(y, s) ← digits 4 0 s;
  s ← expect "-" s;
  '(m, s) ← digits 2 0 s;
  s ← expect "-" s;
  '(d, s) ← digits 2 0 s;
  match s with
  | EmptyString => make y m d 0 0 0 0 None
  | String _ t =>
      let '(tpart, z) := split_tz t in
      '(hh, mm, ss, us) ← parse_hh_mm_ss_ff tpart;
      match z with
      | None => make y m d hh mm ss us None
      | Some (neg, ztext) =>
          off ← parse_tz neg ztext;
          make y m d hh mm ss us (Some off)
      end
  end.

(** *** [datetime.strptime(s, '%Y-%m-%dT%H:%M:%S')]

    Each directive but [%Y] takes two digits when they are in its range
    and one digit otherwise; the match ignores case and must reach the
    end of the text; the result is naive. *)

Definition field2 (ok2 : Z → bool) (ok1 : Z → bool) (s : string)
  : option (Z * string) :=
  match digits 2 0 s with
  | Some (v, s') =>
      if ok2 v then Some (v, s')
      else '(v1, s1) ← digits 1 0 s; if ok1 v1 then Some (v1, s1) else None
  | None => '(v1, s1) ← digits 1 0 s; if ok1 v1 then Some (v1, s1) else None
  end.

Definition any_digit (_ : Z) : bool := true.

Definition parse_strptime_T (s : string) : option datetime :=
  '(y, s) ← digits 4 0 s;
  s ← expect "-" s;
  '(m, s) ← field2 (λ v, (1 <=? v) && (v <=? 12)) (λ v, 1 <=? v) s;
  s ← expect "-" s;
  '(d, s) ← match s with
            | String " " s' => '(v, s'') ← digits 1 0 s';
                               if 1 <=? v then Some (v, s'') else None
            | _ => field2 (λ v, (1 <=? v) && (v <=? 31)) (λ v, 1 <=? v) s
            end;
  s ← match s with
      | String c s' => if Ascii.eqb c "T" || Ascii.eqb c "t" then Some s' else None
      | EmptyString => None
      end;
  '(hh, s) ← field2 (λ v, v <=? 23) any_digit s;
  s ← expect ":" s;
  '(mm, s) ← field2 (λ v, v <=? 59) any_digit s;
  s ← expect ":" s;
  '(ss, s) ← field2 (λ v, v <=? 61) any_digit s;
  match s with
  | EmptyString => make y m d hh mm ss 0 None
  | _ => None
  end.

End Iso.

Definition py_datetime : PyDatetime :=
  {| fromisoformat := Iso.parse_iso;
     strptime_T := Iso.parse_strptime_T;
     fromisoformat_empty := eq_refl |}.

(** ** The store (db.py) *)

(** Exceptions the modelled code raises. *)
Inductive exn :=
| ValueError (msg : string)
| IntegrityError (msg : string)
| TypeError.

(** The result of a call: a value, or an exception. *)
Inductive outcome (A : Type) :=
| Returns (a : A)
| Raises (e : exn).
Arguments Returns {A} a.
Arguments Raises {A} e.

#[global] Instance outcome_ret : MRet outcome := λ A a, Returns a.
#[global] Instance outcome_bind : MBind outcome := λ A B k m,
  match m with
  | Returns a => k a
  | Raises e => Raises e
  end.

Module Db.
Import Time.

(** Rows of [bookings], [reminders], [users] and [closed_dates], with
    the columns of [init_db]. *)
Record booking := Booking {
  b_id : Z;
  b_user_id : Z;
  b_date : string;
  b_time : string;
  b_start_ts : string;
  b_branch : string;
  b_purpose : string;
  b_active : Z;
  b_created_at : string
}.

Record reminder := Reminder {
  r_id : Z;
  r_booking_id : Z;
  r_user_id : Z;
  r_admin_id : option Z;
  r_reminder_type : string;
  r_remind_time : string;
  r_scheduled_time : string;
  r_sent : Z;
  r_created_at : string
}.

Record user := User {
  u_lang : string;
  u_first_name : string;
  u_username : string;
  u_created_at : string
}.

Record closed_date := ClosedDate {
  cd_reason : string;
  cd_created_at : string
}.

#[global] Instance booking_eq_dec : EqDecision booking.
Proof. solve_decision. Defined.
#[global] Instance reminder_eq_dec : EqDecision reminder.
Proof. solve_decision. Defined.

(** The database: [users] and [closed_dates] are keyed by their primary
    key; [bookings] and [reminders] are in rowid order, with the counter
    [sqlite_sequence] keeps for an [AUTOINCREMENT] table;
    [slot_triggers] tells whether the triggers of migration 006 are
    installed. *)
Record database := Database {
  users : gmap Z user;
  bookings : list booking;
  bookings_seq : Z;
  reminders : list reminder;
  reminders_seq : Z;
  closed_dates : gmap string closed_date;
  slot_triggers : bool
}.

Definition set_bookings (db : database) (bs : list booking) (seq : Z) : database :=
  Database (users db) bs seq (reminders db) (reminders_seq db)
           (closed_dates db) (slot_triggers db).

Definition set_reminders (db : database) (rs : list reminder) (seq : Z) : database :=
  Database (users db) (bookings db) (bookings_seq db) rs seq
           (closed_dates db) (slot_triggers db).

Definition set_closed_dates (db : database) (cds : gmap string closed_date) : database :=
  Database (users db) (bookings db) (bookings_seq db) (reminders db)
           (reminders_seq db) cds (slot_triggers db).

Definition set_slot_triggers (db : database) (t : bool) : database :=
  Database (users db) (bookings db) (bookings_seq db) (reminders db)
           (reminders_seq db) (closed_dates db) t.

Definition empty_db : database := Database ∅ [] 0 [] 0 ∅ false.

(** The rowid an [AUTOINCREMENT] insert gets: one more than the largest
    rowid the table holds or ever held. *)
Definition max_id {A} (id : A → Z) (rows : list A) : Z :=
  foldr (λ r m, Z.max (id r) m) 0 rows.

Definition next_rowid {A} (id : A → Z) (rows : list A) (seq : Z) : Z :=
  Z.max seq (max_id id rows) + 1.

(** [... WHERE start_ts=? AND active=1] *)
Definition active_at (start_ts : string) (b : booking) : Prop :=
  b_start_ts b = start_ts ∧ b_active b = 1.

#[global] Instance active_at_dec ts b : Decision (active_at ts b).
Proof. unfold active_at. apply _. Defined.

(** [SELECT COUNT( * ) FROM bookings WHERE start_ts=? AND active=1] *)
Definition count_active_at (db : database) (start_ts : string) : nat :=
  length (filter (active_at start_ts) (bookings db)).

Definition is_slot_free (db : database) (start_ts : string) : bool :=
  Nat.eqb (count_active_at db start_ts) 0.

(** [INSERT INTO bookings(...)]: [active] takes its default, 1. With the
    triggers of migration 006 installed the insert aborts when an active
    booking holds the same [start_ts]. *)
Definition insert_booking (db : database) (user_id : Z)
    (date time start_ts branch purpose created_at : string)
  : outcome (Z * database) :=
  if slot_triggers db && negb (Nat.eqb (count_active_at db start_ts) 0)
  then Raises (IntegrityError "Slot already booked")
  else
    let bid := next_rowid b_id (bookings db) (bookings_seq db) in
    let row := Booking bid user_id date time start_ts branch purpose 1 created_at in
    Returns (bid, set_bookings db (bookings db ++ [row]) bid).

(** [add_booking]: check and insert in one transaction; an exception
    rolls the transaction back, so the caller keeps the database it
    had. *)
Definition add_booking (db : database) (clock : Z) (user_id : Z)
    (date time start_ts branch purpose : string) : outcome (Z * database) :=
  if Nat.ltb 0 (count_active_at db start_ts)
  then Raises (ValueError "Slot is already taken")
  else insert_booking db user_id date time start_ts branch purpose
                      (Iso.isoformat (now_utc clock)).

(** [UPDATE bookings SET active=0 WHERE id=?]. The update trigger of
    migration 006 only fires for a row whose new [active] is 1. *)
Definition deactivate (booking_id : Z) (b : booking) : booking :=
  if decide (b_id b = booking_id)
  then Booking (b_id b) (b_user_id b) (b_date b) (b_time b) (b_start_ts b)
               (b_branch b) (b_purpose b) 0 (b_created_at b)
  else b.

Definition cancel_booking (db : database) (booking_id : Z) : database :=
  set_bookings db (deactivate booking_id <$> bookings db) (bookings_seq db).

Definition get_booking (db : database) (booking_id : Z) : option booking :=
  head (filter (λ b, b_id b = booking_id) (bookings db)).

(** The state of the database after a call that may have raised. *)
Definition state_after {A} (db : database) (r : outcome (A * database)) : database :=
  match r with
  | Returns (_, db') => db'
  | Raises _ => db
  end.

(** *** Invariants *)

(** At most one active booking for each [start_ts]. *)
Definition slot_unique (db : database) : Prop :=
  ∀ start_ts, (count_active_at db start_ts ≤ 1)%nat.

(** Booking ids are a primary key. *)
Definition ids_unique (db : database) : Prop :=
  NoDup (b_id <$> bookings db).

(** The cancelled rows of a booking id. *)
Definition cancelled_rows (db : database) (bid : Z) : list booking :=
  filter (λ b, b_id b = bid ∧ b_active b = 0) (bookings db).

(** [migration_006_add_unique_constraint_start_ts] (migrations.py):
    when no [start_ts] has two active bookings it installs the triggers,
    and otherwise it leaves the database as it is. It never raises. *)
Definition has_duplicate_slots (db : database) : bool :=
  bool_decide (Exists (λ b, b_active b = 1
                            ∧ (1 < count_active_at db (b_start_ts b))%nat)
                      (bookings db)).

Definition migration_006_add_unique_constraint_start_ts (db : database) : database :=
  if has_duplicate_slots db then db else set_slot_triggers db true.

(** *** Closed dates *)

(** [INSERT OR REPLACE INTO closed_dates(date, reason, created_at)] *)
Definition add_closed_date (db : database) (clock : Z) (date reason : string)
  : database :=
  set_closed_dates db
    (<[date := ClosedDate reason (Iso.isoformat (now_utc clock))]> (closed_dates db)).

Definition is_date_closed (db : database) (date : string) : bool :=
  bool_decide (is_Some (closed_dates db !! date)).

Definition get_closed_date_reason (db : database) (date : string) : option string :=
  cd_reason <$> closed_dates db !! date.

(** [DELETE FROM closed_dates WHERE date=?] *)
Definition remove_closed_date (db : database) (date : string) : database :=
  set_closed_dates db (delete date (closed_dates db)).

(** *** Reminders *)

(** [save_reminder]: [sent] takes its default, 0. *)
Definition save_reminder (db : database) (clock : Z) (booking_id user_id : Z)
    (admin_id : option Z) (reminder_type remind_time scheduled_time : string)
  : Z * database :=
  let rid := next_rowid r_id (reminders db) (reminders_seq db) in
  let row := Reminder rid booking_id user_id admin_id reminder_type remind_time
                      scheduled_time 0 (Iso.isoformat (now_utc clock)) in
  (rid, set_reminders db (reminders db ++ [row]) rid).

(** [UPDATE reminders SET sent=1 WHERE id=?] *)
Definition mark_sent (reminder_id : Z) (r : reminder) : reminder :=
  if decide (r_id r = reminder_id)
  then Reminder (r_id r) (r_booking_id r) (r_user_id r) (r_admin_id r)
                (r_reminder_type r) (r_remind_time r) (r_scheduled_time r) 1
                (r_created_at r)
  else r.

Definition mark_reminder_sent (db : database) (reminder_id : Z) : database :=
  set_reminders db (mark_sent reminder_id <$> reminders db) (reminders_seq db).

(** [DELETE FROM reminders WHERE booking_id=?] *)
Definition delete_reminders_for_booking (db : database) (booking_id : Z) : database :=
  set_reminders db (filter (λ r, r_booking_id r ≠ booking_id) (reminders db))
                (reminders_seq db).

Definition get_reminders_for_booking (db : database) (booking_id : Z) : list reminder :=
  filter (λ r, r_booking_id r = booking_id) (reminders db).

(** [delete_booking]: the reminders first, then the booking. *)
Definition delete_booking (db : database) (booking_id : Z) : database :=
  let db1 := delete_reminders_for_booking db booking_id in
  set_bookings db1 (filter (λ b, b_id b ≠ booking_id) (bookings db1))
               (bookings_seq db1).

(** A row of [get_unsent_reminders]: the reminder, three columns of the
    booking it joins, and the language of its user when there is one. *)
Record reminder_row := ReminderRow {
  rr_reminder : reminder;
  rr_start_ts : string;
  rr_purpose : string;
  rr_branch : string;
  rr_lang : option string
}.

#[global] Instance reminder_row_eq_dec : EqDecision reminder_row.
Proof. solve_decision. Defined.

(** [reminders r JOIN bookings b ON r.booking_id = b.id
     LEFT JOIN users u ON r.user_id = u.user_id
     WHERE r.sent = 0 AND b.active = 1], before the ordering. *)
Definition join_unsent (db : database) : list reminder_row :=
  r ← reminders db;
  b ← filter (λ b, b_id b = r_booking_id r) (bookings db);
  if decide (r_sent r = 0 ∧ b_active b = 1)
  then [ReminderRow r (b_start_ts b) (b_purpose b) (b_branch b)
                    (u_lang <$> users db !! r_user_id r)]
  else [].

(** [ORDER BY r.scheduled_time ASC]: the order of the texts. *)
Definition sched_le (x y : reminder_row) : Prop :=
  String.le (r_scheduled_time (rr_reminder x)) (r_scheduled_time (rr_reminder y)).

#[global] Instance sched_le_dec x y : Decision (sched_le x y).
Proof. unfold sched_le, String.le. apply _. Defined.

Definition get_unsent_reminders (db : database) : list reminder_row :=
  merge_sort sched_le (join_unsent db).

(** *** Operations that read timestamps *)

(** [ORDER BY start_ts ASC] *)
Definition start_ts_le (x y : booking) : Prop :=
  String.le (b_start_ts x) (b_start_ts y).

#[global] Instance start_ts_le_dec x y : Decision (start_ts_le x y).
Proof. unfold start_ts_le, String.le. apply _. Defined.

(** [... WHERE active=1 AND start_ts>=?], a comparison of texts. *)
Definition upcoming_text (now_text : string) (b : booking) : Prop :=
  b_active b = 1 ∧ String.le now_text (b_start_ts b).

#[global] Instance upcoming_text_dec t b : Decision (upcoming_text t b).
Proof. unfold upcoming_text, String.le. apply _. Defined.

Definition count_upcoming_bookings (db : database) (clock : Z) : Z :=
  Z.of_nat (length (filter (upcoming_text (Iso.isoformat (now_utc clock))) (bookings db))).

(** [LIMIT ? OFFSET ?]: a negative limit is no limit, a negative offset
    is none. *)
Definition limit_offset {A} (limit offset : Z) (rows : list A) : list A :=
  let rest := drop (Z.to_nat offset) rows in
  if limit <? 0 then rest else take (Z.to_nat limit) rest.

Definition get_upcoming_bookings_paginated (db : database) (clock : Z)
    (limit offset : Z) : list booking :=
  limit_offset limit offset
    (merge_sort start_ts_le
       (filter (upcoming_text (Iso.isoformat (now_utc clock))) (bookings db))).

(** [delete_past_bookings]: the bookings whose [start_ts] text is below
    the text of now, and their reminders. *)
Definition delete_past_bookings (db : database) (clock : Z) : database :=
  let now_text := Iso.isoformat (now_utc clock) in
  let past (b : booking) : Prop := String.ltb (b_start_ts b) now_text = true in
  let ids := b_id <$> filter past (bookings db) in
  if ids is [] then db
  else
    let db1 := set_reminders db
                 (filter (λ r, r_booking_id r ∉ ids) (reminders db))
                 (reminders_seq db) in
    set_bookings db1 (filter (λ b, b_id b ∉ ids) (bookings db1)) (bookings_seq db1).

Section WithParsers.
Context {L : PyDatetime}.

(** A naive value is localized to UTC; an aware one is kept. *)
Definition or_utc (d : datetime) : datetime :=
  match tzinfo d with
  | None => localize_utc d
  | Some _ => d
  end.

Definition _parse_start_ts (ts : string) : option datetime :=
  if decide (ts = EmptyString) then None
  else
    match fromisoformat ts with
    | Some d => Some (or_utc d)
    | None =>
        match strptime_T ts with
        | Some d => Some (or_utc d)
        | None => None
        end
    end.

(** [... WHERE user_id=? AND active=1] *)
Definition active_of (user_id : Z) (b : booking) : Prop :=
  b_user_id b = user_id ∧ b_active b = 1.

#[global] Instance active_of_dec u b : Decision (active_of u b).
Proof. unfold active_of. apply _. Defined.

(** [start and d < start] and [end and d >= end]: a missing bound
    is not tested; a bound that cannot be ordered with [d] raises. *)
Definition below (d : datetime) (start : option datetime) : outcome bool :=
  match start with
  | None => Returns false
  | Some s => if dt_lt d s is Some t then Returns t else Raises TypeError
  end.

Definition not_below (d : datetime) (stop : option datetime) : outcome bool :=
  match stop with
  | None => Returns false
  | Some e => if dt_ge d e is Some t then Returns t else Raises TypeError
  end.

(** The loop of [count_user_bookings_in_week] over the fetched rows. *)
Fixpoint count_rows (start stop : option datetime) (rows : list string)
    (count : Z) : outcome Z :=
  match rows with
  | [] => Returns count
  | ts :: rows' =>
      match _parse_start_ts ts with
      | None => count_rows start stop rows' count
      | Some d =>
          early ← below d start;
          if early : bool then count_rows start stop rows' count
          else
            late ← not_below d stop;
            if late : bool then count_rows start stop rows' count
            else count_rows start stop rows' (count + 1)
      end
  end.

Definition count_user_bookings_in_week (db : database) (user_id : Z)
    (week_start_ts week_end_ts : string) : outcome Z :=
  let rows := b_start_ts <$> filter (active_of user_id) (bookings db) in
  if rows is [] then Returns 0
  else count_rows (fromisoformat week_start_ts) (fromisoformat week_end_ts) rows 0.

(** A booking the quota counts for [user_id] in the window from
    the instant [lo] to the instant [hi]: active, of that user, with
    a [start_ts] that parses to an instant of the window. *)
Definition in_window (lo hi : Z) (ts : string) : Prop :=
  match _parse_start_ts ts with
  | Some d => lo ≤ instant d < hi
  | None => False
  end.

#[global] Instance in_window_dec lo hi ts : Decision (in_window lo hi ts).
Proof. unfold in_window. destruct (_parse_start_ts ts); apply _. Defined.

Definition counted (user_id : Z) (lo hi : Z) (b : booking) : Prop :=
  active_of user_id b ∧ in_window lo hi (b_start_ts b).

#[global] Instance counted_dec u lo hi b : Decision (counted u lo hi b).
Proof. unfold counted. apply _. Defined.

(** The listings that parse: rows that do not parse are skipped, the
    rest is kept from now on and sorted by parsed time. *)
Definition parsed_upcoming (clock : Z) (rows : list booking)
  : list (datetime * booking) :=
  b ← rows;
  match _parse_start_ts (b_start_ts b) with
  | Some d => if dt_ge d (now_utc clock) is Some true then [(d, b)] else []
  | None => []
  end.

Definition parsed_le (x y : datetime * booking) : Prop :=
  instant x.1 ≤ instant y.1.

#[global] Instance parsed_le_dec x y : Decision (parsed_le x y).
Proof. unfold parsed_le. apply _. Defined.

Definition list_user_bookings (db : database) (clock : Z) (user_id : Z)
  : list booking :=
  snd <$> merge_sort parsed_le
            (parsed_upcoming clock (filter (active_of user_id) (bookings db))).

Definition list_upcoming_bookings (db : database) (clock : Z) : list booking :=
  snd <$> merge_sort parsed_le
            (parsed_upcoming clock (filter (λ b, b_active b = 1) (bookings db))).




End WithParsers.

(** *** Users *)

Definition set_users (db : database) (us : gmap Z user) : database :=
  Database us (bookings db) (bookings_seq db) (reminders db) (reminders_seq db)
           (closed_dates db) (slot_triggers db).

(** [SELECT * FROM users WHERE user_id=?] *)
Definition get_user (db : database) (user_id : Z) : option user :=
  users db !! user_id.

(** [INSERT OR REPLACE INTO users(user_id, lang, first_name, username,
    created_at)] *)
Definition create_user (db : database) (clock : Z) (user_id : Z)
    (lang first_name username : string) : database :=
  set_users db
    (<[user_id := User lang first_name username (Iso.isoformat (now_utc clock))]>
       (users db)).

(** [UPDATE users SET lang=? WHERE user_id=?] *)
Definition with_lang (lang : string) (u : user) : user :=
  User lang (u_first_name u) (u_username u) (u_created_at u).

Definition set_user_lang (db : database) (user_id : Z) (lang : string) : database :=
  set_users db (alter (with_lang lang) user_id (users db)).

(** *** Rescheduling *)

(** [UPDATE bookings SET date=?, time=?, start_ts=? WHERE id=?] on one
    row. *)
Definition retime (booking_id : Z) (date time start_ts : string) (b : booking)
  : booking :=
  if decide (b_id b = booking_id)
  then Booking (b_id b) (b_user_id b) date time start_ts (b_branch b) (b_purpose b)
               (b_active b) (b_created_at b)
  else b.

(** The update trigger of migration 006, for the row of [booking_id]:
    the row stays active and another active booking holds the new
    [start_ts]. *)
Definition update_blocked (db : database) (booking_id : Z) (start_ts : string) : bool :=
  bool_decide (Exists (λ b, b_id b = booking_id ∧ b_active b = 1) (bookings db))
  && bool_decide (Exists (λ b, b_start_ts b = start_ts ∧ b_id b ≠ booking_id
                               ∧ b_active b = 1) (bookings db)).

(** [update_booking_time]: it makes no check of its own; with the
    triggers installed the update aborts when it is blocked. *)
Definition update_booking_time (db : database) (booking_id : Z)
    (date time start_ts : string) : outcome database :=
  if slot_triggers db && update_blocked db booking_id start_ts
  then Raises (IntegrityError "Slot already booked")
  else Returns (set_bookings db (retime booking_id date time start_ts <$> bookings db)
                             (bookings_seq db)).

(** *** Bulk cancellation by date *)

(** [datetime.strptime(text, format)], library code as [fromisoformat]
    is. *)
Class PyStrptime := {
  strptime : string → string → option datetime
}.

(** [d.date().isoformat()] *)
Definition date_text (d : datetime) : string :=
  let '(y, m, dd) := civil_from_days (day_of d) in
  Iso.pad 4 y (String "-" (Iso.pad 2 m (String "-" (Iso.pad 2 dd EmptyString)))).

Section WithStrptime.
Context {L : PyDatetime} {P : PyStrptime}.

(** The formats tried, in order, by [cancel_all_bookings_on_date] and
    [get_reminders_for_date]. *)
Definition date_formats : list string :=
  ["%Y-%m-%d"; "%d-%m-%Y"; "%d.%m.%Y"; "%d/%m/%Y"]%string.

Fixpoint first_format (formats : list string) (date_str : string) : option string :=
  match formats with
  | [] => None
  | fmt :: rest =>
      match strptime date_str fmt with
      | Some d => Some (date_text d)
      | None => first_format rest date_str
      end
  end.

(** The date in the form [YYYY-MM-DD], or [None] where the code raises
    [ValueError]. An empty result of a format counts as none found
    ([if not norm_date]). *)
Definition normalize_date (date_str : string) : option string :=
  match first_format date_formats date_str with
  | Some norm =>
      if decide (norm = EmptyString) then date_text <$> fromisoformat date_str
      else Some norm
  | None => date_text <$> fromisoformat date_str
  end.

(** [... WHERE date=? AND active=1] *)
Definition active_on (date : string) (b : booking) : Prop :=
  b_date b = date ∧ b_active b = 1.

#[global] Instance active_on_dec date b : Decision (active_on date b).
Proof. unfold active_on. apply _. Defined.

(** [DELETE FROM reminders WHERE booking_id IN (ids)] and
    [DELETE FROM bookings WHERE id IN (ids)], when [ids] is not empty. *)
Definition delete_by_ids (db : database) (ids : list Z) : database :=
  if ids is [] then db
  else
    let db1 := set_reminders db
                 (filter (λ r, r_booking_id r ∉ ids) (reminders db))
                 (reminders_seq db) in
    set_bookings db1 (filter (λ b, b_id b ∉ ids) (bookings db1)) (bookings_seq db1).

(** [cancel_all_bookings_on_date]: the active bookings of the date are
    deleted with their reminders and returned. *)
Definition cancel_all_bookings_on_date (db : database) (date_str : string)
  : outcome (list booking * database) :=
  match normalize_date date_str with
  | None => Raises (ValueError (String.append "Invalid date format: " date_str))
  | Some norm_date =>
      let rows := filter (active_on norm_date) (bookings db) in
      Returns (rows, delete_by_ids db (b_id <$> rows))
  end.

(** [get_reminders_for_date]: the unsent reminders joined to a booking
    of the date, active or not. *)
Definition get_reminders_for_date (db : database) (date_str : string)
  : outcome (list reminder) :=
  match normalize_date date_str with
  | None => Raises (ValueError (String.append "Invalid date format: " date_str))
  | Some norm_date =>
      Returns (r ← reminders db;
               b ← filter (λ b, b_id b = r_booking_id r) (bookings db);
               if decide (b_date b = norm_date ∧ r_sent r = 0) then [r] else [])
  end.

End WithStrptime.

(** *** What the parsing listings keep *)

Section Listings.
Context {L : PyDatetime}.

(** A booking whose [start_ts] parses to an instant not before the
    clock. *)
Definition is_upcoming (clock : Z) (b : booking) : Prop :=
  match _parse_start_ts (b_start_ts b) with
  | Some d => clock ≤ instant d
  | None => False
  end.

#[global] Instance is_upcoming_dec clock b : Decision (is_upcoming clock b).
Proof. unfold is_upcoming. destruct (_parse_start_ts (b_start_ts b)); apply _. Defined.

(** A [start_ts] that [_parse_start_ts] reads. *)
Definition parsable (ts : string) : Prop := is_Some (_parse_start_ts ts).

#[global] Instance parsable_dec ts : Decision (parsable ts).
Proof. unfold parsable. apply _. Defined.

End Listings.

End Db.

(** ** The migration runner (migrations.py) *)

Module Migrations.

Section Runner.
(** What the migrations act on: the database apart from the table
    [_migrations], which only the runner writes. *)
Context {S : Type}.

(** A migration callable: it leaves a state and either returns or
    raises. *)
Definition migrate_func : Type := S → S * option exn.

(** The store: the data, and the table [_migrations] when it exists,
    as the list of its names in the order they were recorded. *)
Record store := Store {
  data : S;
  migrations_table : option (list string)
}.

(** [get_applied_migrations]: creates the table when it is missing. *)
Definition get_applied_migrations (st : store) : list string * store :=
  match migrations_table st with
  | None => ([], Store (data st) (Some []))
  | Some names => (names, st)
  end.

(** [INSERT OR IGNORE INTO _migrations(name)] *)
Definition insert_or_ignore (name : string) (names : list string) : list string :=
  if decide (name ∈ names) then names else names ++ [name].

Definition mark_migration_applied (st : store) (name : string) : store :=
  Store (data st) (insert_or_ignore name <$> migrations_table st).

(** What the runner logs. *)
Inductive event :=
| AllApplied
| Running (name : string)
| Completed (name : string)
| Failed (name : string).

Record run := Run {
  final : store;
  log : list event;
  raised : option exn
}.

(** The loop of [run_all_migrations] over the pending migrations. *)
Fixpoint run_pending (pending : list (string * migrate_func)) (st : store) : run :=
  match pending with
  | [] => Run st [] None
  | (name, migrate) :: rest =>
      match migrate (data st) with
      | (s, Some e) =>
          Run (Store s (migrations_table st)) [Running name; Failed name] (Some e)
      | (s, None) =>
          let st' := mark_migration_applied (Store s (migrations_table st)) name in
          let r := run_pending rest st' in
          Run (final r) (Running name :: Completed name :: log r) (raised r)
      end
  end.

Definition pending_of (MIGRATIONS : list (string * migrate_func))
    (applied : list string) : list (string * migrate_func) :=
  filter (λ m, m.1 ∉ applied) MIGRATIONS.

Definition run_all_migrations (MIGRATIONS : list (string * migrate_func))
    (st : store) : run :=
  let '(applied, st) := get_applied_migrations st in
  let pending := pending_of MIGRATIONS applied in
  if pending is [] then Run st [AllApplied] None
  else run_pending pending st.

(** The migrations a run started, in the order it started them. *)
Definition started (l : list event) : list string :=
  omap (λ e, if e is Running name then Some name else None) l.

(** The names recorded as applied. *)
Definition applied_of (st : store) : list string :=
  default [] (migrations_table st).


End Runner.

Arguments migrate_func : clear implicits.
Arguments store : clear implicits.
Arguments run : clear implicits.

End Migrations.

(** ** The booking and reminder handlers (bot.py) *)

Module Bot.
Import Time Db.

(** [t.split(':')] *)
Fixpoint split_colon (s : string) : list string :=
  match s with
  | EmptyString => [EmptyString]
  | String c s' =>
      if Ascii.eqb c ":" then EmptyString :: split_colon s'
      else match split_colon s' with
           | [] => [String c EmptyString]
           | p :: ps => String c p :: ps
           end
  end.

(** [int(s)] on a text of decimal digits, the only form the bot writes. *)
Fixpoint int_digits (acc : Z) (s : string) : option Z :=
  match s with
  | EmptyString => Some acc
  | String c s' => v ← Iso.digit_val c; int_digits (10 * acc + v) s'
  end.

Definition int_of (s : string) : option Z :=
  if decide (s = EmptyString) then None else int_digits 0 s.

(** [hh, mm = map(int, t.split(':'))] followed by [dtime(hh, mm)]. *)
Definition parse_hh_mm (t : string) : option (Z * Z) :=
  match split_colon t with
  | [h; m] =>
      hh ← int_of h; mm ← int_of m;
      if (hh <? 24) && (mm <? 60) then Some (hh, mm) else None
  | _ => None
  end.

(** [branch_slots_for_date]: the same times for both branches. *)
Definition branch_slots_for_date (branch_key : string) : list string :=
  ["14:00"; "14:30"; "15:00"; "15:30"; "16:00"; "16:30"; "17:00"; "17:30"; "18:00"]%string.

(** [weekday_slots(d)[1]] for the date of day number [day]. *)
Definition weekday_branch (day : Z) : string :=
  let wd := (day + 3) `mod` 7 in
  if (wd =? 0) || (wd =? 2) || (wd =? 4) then "branch_2" else "branch_1".

(** One-shot jobs of the job queue. *)
Inductive callback := send_reminder_student | send_reminder_teacher.

Record job := Job {
  j_callback : callback;
  j_when : datetime;
  j_chat : Z;
  j_reminder_id : Z;
  j_name_suffix : option Z
}.

(** The repeating job [startup] registers. *)
Record repeating := Repeating { rp_interval : Z; rp_first : Z }.

Record pending_slot := PendingSlot {
  p_date : string;
  p_time : string;
  p_start_ts : string;
  p_branch : string
}.

(** The keys of [context.user_data] the booking flow uses. *)
Record user_data := UserData {
  admin_reschedule_bid : option Z;
  admin_reschedule_pending : option (Z * pending_slot);
  pending : option pending_slot
}.

Inductive button :=
| ButtonPassed
| ButtonFree (date_str t branch_key : string)
| ButtonTaken.

#[global] Instance button_eq_dec : EqDecision button.
Proof. solve_decision. Defined.

(** What a handler answers. *)
Inductive reply :=
| Ignored
| DateClosedMsg (reason : option string)
| ChooseSlot (branch_key : string) (buttons : list button)
| AlertSlotTaken
| AlertSlotPassed
| SlotTakenMsg
| MaxWeeklyMsg
| AskRescheduleReason
| ChoosePurpose
| SessionExpired
| BookingConfirmed (bid : Z)
| BookingFailed
| HandlerFailed.

(** The payload of a [slot...] callback. *)
Inductive slot_callback :=
| CbSlotTaken
| CbSlotPassed
| CbSlot (date_str time_str : string) (branch_key : option string)
| CbOther.

Section Handlers.
Context {L : PyDatetime}.
(** [TZ], a zone of fixed offset (in microseconds), as the default
    [Asia/Tashkent] is; and [config.ADMIN_IDS]. *)
Variable TZ : Z.
Variable ADMIN_IDS : list Z.

(** [TZ.localize(datetime.combine(d, dtime(hh, mm)))] *)
Definition local_slot (day hh mm : Z) : datetime :=
  DateTime (day * usec_per_day + hh * usec_per_hour + mm * usec_per_min) (Some TZ).

(** [local_dt.astimezone(pytz.utc).isoformat()] *)
Definition utc_text (d : datetime) : string := Iso.isoformat (astimezone 0 d).

Definition now_tz (clock : Z) : datetime := astimezone TZ (now_utc clock).

(** The button [date_selected] builds for the time [t]. *)
Definition slot_button (db : database) (clock : Z) (day : Z)
    (date_str branch_key t : string) : option button :=
  '(hh, mm) ← parse_hh_mm t;
  let local_dt := local_slot day hh mm in
  let start_ts := utc_text local_dt in
  let is_today := bool_decide (day = day_of (now_tz clock)) in
  let slot_passed := is_today && (instant local_dt <=? instant (now_tz clock)) in
  Some (if slot_passed then ButtonPassed
        else if is_slot_free db start_ts then ButtonFree date_str t branch_key
        else ButtonTaken).

(** [date_selected] on the payload [date:{branch_key}|{date_str}], or
    [date:{date_str}] when [branch_key] is [None]. *)
Definition date_selected (db : database) (clock : Z)
    (branch_key : option string) (date_str : string) : reply :=
  match fromisoformat date_str with
  | None => HandlerFailed
  | Some dt =>
      let day := day_of dt in
      let branch_key :=
        match branch_key with
        | Some k => k
        | None =>
            let '(_, _, dd) := civil_from_days day in
            if dd `mod` 2 =? 0 then "branch_1"%string else "branch_2"%string
        end in
      if is_date_closed db date_str then
        match get_closed_date_reason db date_str with
        | Some reason =>
            if decide (reason = EmptyString) then DateClosedMsg None
            else DateClosedMsg (Some reason)
        | None => DateClosedMsg None
        end
      else
        match mapM (slot_button db clock day date_str branch_key)
                   (branch_slots_for_date branch_key) with
        | Some buttons => ChooseSlot branch_key buttons
        | None => HandlerFailed
        end
  end.

(** The Monday-to-Sunday week of a slot, as [slot_selected] computes
    it. *)
Definition week_start (local_dt : datetime) : datetime :=
  at_midnight (add_usec local_dt (- (weekday local_dt * usec_per_day))).

Definition week_end (local_dt : datetime) : datetime :=
  add_usec (week_start local_dt) (7 * usec_per_day).

Definition slot_selected (db : database) (user_id : Z) (ud : user_data)
    (cb : slot_callback) : reply * user_data :=
  match cb with
  | CbSlotTaken => (AlertSlotTaken, ud)
  | CbSlotPassed => (AlertSlotPassed, ud)
  | CbOther => (Ignored, ud)
  | CbSlot date_str time_str branch =>
      match fromisoformat date_str, parse_hh_mm time_str with
      | Some dt, Some (hh, mm) =>
          let day := day_of dt in
          let branch_key := default (weekday_branch day) branch in
          let local_dt := local_slot day hh mm in
          let start_ts := utc_text local_dt in
          let slot := PendingSlot date_str time_str start_ts branch_key in
          match (if bool_decide (user_id ∈ ADMIN_IDS)
                 then admin_reschedule_bid ud else None) with
          | Some bid_to =>
              let ud := UserData None (admin_reschedule_pending ud) (pending ud) in
              if negb (is_slot_free db start_ts) then (SlotTakenMsg, ud)
              else (AskRescheduleReason,
                    UserData None (Some (bid_to, slot)) (pending ud))
          | None =>
              match count_user_bookings_in_week db user_id
                      (utc_text (week_start local_dt))
                      (utc_text (week_end local_dt)) with
              | Raises _ => (HandlerFailed, ud)
              | Returns cnt =>
                  if 50 <=? cnt then (MaxWeeklyMsg, ud)
                  else if negb (is_slot_free db start_ts) then (SlotTakenMsg, ud)
                  else if negb (is_slot_free db start_ts) then (SlotTakenMsg, ud)
                  else (ChoosePurpose,
                        UserData (admin_reschedule_bid ud)
                                 (admin_reschedule_pending ud) (Some slot))
              end
          end
      | _, _ => (HandlerFailed, ud)
      end
  end.

(** The reminders [purpose_selected] saves and arms for a new booking:
    each one only when its time is still ahead. *)
Definition schedule_reminder (clock : Z) (bid user_id : Z)
    (reminder_type remind_time : string) (lead : Z) (local_dt : datetime)
    (st : database * list job) : database * list job :=
  let '(db, jobs) := st in
  let remind := add_usec local_dt (- lead) in
  if instant (now_tz clock) <? instant remind then
    let '(rid, db') :=
      save_reminder db clock bid user_id None reminder_type remind_time
                    (utc_text remind) in
    let when_utc := DateTime (wall (astimezone 0 remind)) None in
    let new :=
      if decide (reminder_type = "teacher"%string)
      then (λ admin_id, Job send_reminder_teacher when_utc admin_id rid None)
             <$> ADMIN_IDS
      else [Job send_reminder_student when_utc user_id rid None] in
    (db', jobs ++ new)
  else st.

Record booked := Booked {
  bk_reply : reply;
  bk_db : database;
  bk_user_data : user_data;
  bk_jobs : list job
}.

Definition purpose_selected (db : database) (clock : Z) (user_id : Z)
    (ud : user_data) (purpose : string) : booked :=
  match pending ud with
  | None => Booked SessionExpired db ud []
  | Some p =>
      match fromisoformat (p_date p), parse_hh_mm (p_time p) with
      | Some dt, Some (hh, mm) =>
          let day := day_of dt in
          let local_dt := local_slot day hh mm in
          let branch_key :=
            if decide (p_branch p = EmptyString) then weekday_branch day
            else p_branch p in
          if negb (is_slot_free db (p_start_ts p)) then Booked SlotTakenMsg db ud []
          else
            match add_booking db clock user_id (p_date p) (p_time p)
                              (p_start_ts p) branch_key purpose with
            | Raises _ => Booked BookingFailed db ud []
            | Returns (bid, db1) =>
                let '(db2, jobs) :=
                  schedule_reminder clock bid user_id "teacher" "10m"
                    (10 * usec_per_min) local_dt
                    (schedule_reminder clock bid user_id "student" "30m"
                       (30 * usec_per_min) local_dt
                       (schedule_reminder clock bid user_id "student" "4h"
                          (4 * usec_per_hour) local_dt (db1, []))) in
                Booked (BookingConfirmed bid) db2
                  (UserData (admin_reschedule_bid ud)
                            (admin_reschedule_pending ud) None) jobs
            end
      | _, _ => Booked BookingFailed db ud []
      end
  end.


Record started := Started {
  st_db : database;
  st_jobs : list job;
  st_repeating : list repeating
}.



(** The booking flow of one user, through the three callbacks in the
    order the menus lead: the date, the button the slot menu shows
    for the time [t], the purpose. The flow stops at the first
    callback that does not lead on. *)
Definition callback_of (b : button) : slot_callback :=
  match b with
  | ButtonPassed => CbSlotPassed
  | ButtonFree date_str t branch_key => CbSlot date_str t (Some branch_key)
  | ButtonTaken => CbSlotTaken
  end.

Definition reserve (db : database) (clock : Z) (user_id : Z) (ud : user_data)
    (branch_key : option string) (date_str t purpose : string)
  : reply * database :=
  match date_selected db clock branch_key date_str with
  | ChooseSlot k buttons =>
      match head (filter (λ p, p.1 = t) (zip (branch_slots_for_date k) buttons)) with
      | Some (_, b) =>
          match slot_selected db user_id ud (callback_of b) with
          | (ChoosePurpose, ud') =>
              let r := purpose_selected db clock user_id ud' purpose in
              (bk_reply r, bk_db r)
          | (other, _) => (other, db)
          end
      | None => (Ignored, db)
      end
  | other => (other, db)
  end.

End Handlers.

(** The page of upcoming bookings of the admin view
    ([admin_callback], [admin:manage:view]): ten items a page, pages
    numbered from 1. *)
Definition items_per_page : Z := 10.

Definition manage_view_total_pages (db : database) (clock : Z) : Z :=
  (count_upcoming_bookings db clock + items_per_page - 1) `div` items_per_page.

Definition manage_view_page (db : database) (clock : Z) (page : Z) : list booking :=
  get_upcoming_bookings_paginated db clock items_per_page ((page - 1) * items_per_page).

End Bot.

(** ** Example states

    States and inputs on which the operations are evaluated, with the
    parsers of [py_datetime], the zone of [Asia/Tashkent] and the default
    [ADMIN_IDS] of [config.py]. *)

Module Examples.
Import Time Db Bot.

#[export] Existing Instance py_datetime.

Definition TASHKENT : Z := 5 * usec_per_hour.
Definition ADMINS : list Z := [841456706; 5130327830].

(** The clock reading at the time an ISO text denotes. *)
Definition clock_at (text : string) : Z :=
  default 0 (instant <$> Iso.parse_iso text).

Definition no_user_data : user_data := UserData None None None.

(** User 7 books Thursday 2025-06-05 at 14:00, on the Wednesday before. *)
Definition wednesday_morning : Z := clock_at "2025-06-04T08:00:00+00:00".

Definition one_booking : database :=
  (reserve TASHKENT ADMINS empty_db wednesday_morning 7 no_user_data
           (Some "branch_1"%string) "2025-06-05" "14:00" "Grammar").2.












(** Two bookings whose [start_ts] is not in the form the bot writes: one
    naive with a space, at 23:00 UTC, and one with the offset of
    Tashkent, at 04:00 UTC. *)
Definition late_booking : booking :=
  Booking 1 7 "2025-06-10" "23:00" "2025-06-10 23:00:00" "branch_1" "Grammar" 1
          "2025-06-01T00:00:00+00:00".

Definition early_booking : booking :=
  Booking 2 8 "2025-06-10" "09:00" "2025-06-10T09:00:00+05:00" "branch_1" "Reading" 1
          "2025-06-01T00:00:00+00:00".

Definition mixed_formats : database :=
  Database ∅ [late_booking; early_booking] 2 [] 0 ∅ false.

Definition tuesday_five_utc : Z := clock_at "2025-06-10T05:00:00+00:00".

(** Three migrations over a counter, the second of which raises. *)
Definition three_migrations : list (string * Migrations.migrate_func Z) :=
  [("001_first"%string, λ s, (s + 1, None));
   ("002_second"%string, λ s, (s, Some (ValueError "duplicate column")));
   ("003_third"%string, λ s, (s + 1, None))].

End Examples.

(** * Properties *)

Import Time Db.

(** ** Slot ledger: uniqueness, round trip, cancellation *)

Section SlotLedger.

Implicit Types (db : database) (b : booking) (bs : list booking).

Lemma count_active_at_snoc db row seq start_ts :
  count_active_at (set_bookings db (bookings db ++ [row]) seq) start_ts
  = (count_active_at db start_ts
     + (if decide (active_at start_ts row) then 1 else 0))%nat.
Proof.
  unfold count_active_at; simpl.
  rewrite filter_app, length_app, filter_cons, filter_nil.
  by destruct (decide (active_at start_ts row)).
Qed.

Lemma max_id_bound {A} (id : A → Z) (rows : list A) (r : A) :
  r ∈ rows → id r ≤ max_id id rows.
Proof.
  induction rows as [|x rows IH]; simpl.
  - by intros ?%elem_of_nil.
  - intros [->|Hin]%elem_of_cons; [lia|]. specialize (IH Hin). lia.
Qed.

Lemma next_rowid_fresh {A} (id : A → Z) (rows : list A) (seq : Z) (r : A) :
  r ∈ rows → id r ≠ next_rowid id rows seq.
Proof.
  intros Hin%(max_id_bound id). unfold next_rowid. lia.
Qed.

(** What a successful [add_booking] did. *)
Lemma add_booking_returns db clock user_id date time start_ts branch purpose bid db' :
  add_booking db clock user_id date time start_ts branch purpose = Returns (bid, db') →
  count_active_at db start_ts = 0%nat
  ∧ bid = next_rowid b_id (bookings db) (bookings_seq db)
  ∧ db' = set_bookings db
            (bookings db ++ [Booking bid user_id date time start_ts branch purpose 1
                                     (Iso.isoformat (now_utc clock))]) bid.
Proof.
  unfold add_booking, insert_booking.
  destruct (count_active_at db start_ts) as [|n] eqn:Hc; simpl.
  - rewrite andb_false_r. by intros [= <- <-].
  - discriminate.
Qed.

Lemma add_booking_free db clock user_id date time start_ts branch purpose :
  is_slot_free db start_ts = true →
  ∃ bid db',
    add_booking db clock user_id date time start_ts branch purpose = Returns (bid, db').
Proof.
  unfold is_slot_free, add_booking, insert_booking.
  intros ->%Nat.eqb_eq. simpl. rewrite andb_false_r. eauto.
Qed.

Lemma add_booking_taken db clock user_id date time start_ts branch purpose :
  is_slot_free db start_ts = false →
  add_booking db clock user_id date time start_ts branch purpose
  = Raises (ValueError "Slot is already taken").
Proof.
  unfold is_slot_free, add_booking. intros Hc%Nat.eqb_neq.
  destruct (count_active_at db start_ts); [done|]. reflexivity.
Qed.

Lemma slot_taken_iff db start_ts :
  is_slot_free db start_ts = false ↔ ∃ b, b ∈ bookings db ∧ active_at start_ts b.
Proof.
  unfold is_slot_free, count_active_at. rewrite Nat.eqb_neq. split.
  - destruct (filter (active_at start_ts) (bookings db)) as [|b l] eqn:Hf; [done|].
    intros _. exists b. apply and_comm, (list_elem_of_filter (active_at start_ts)).
    rewrite Hf. left.
  - intros (b & Hin & Hb) Hlen.
    apply length_zero_iff_nil in Hlen.
    by eapply (filter_nil_not_elem_of (active_at start_ts)).
Qed.

(** C1. In a state with at most one active booking for each [start_ts],
    [add_booking] keeps it so: when an active booking already holds the
    requested [start_ts] the call raises and inserts nothing, and when
    the call returns, the state it leaves still has at most one active
    booking for each [start_ts]. *)
Theorem add_booking_preserves_slot_unique
    db clock user_id date time start_ts branch purpose :
  slot_unique db →
  let r := add_booking db clock user_id date time start_ts branch purpose in
  slot_unique (state_after db r)
  ∧ ((∃ b, b ∈ bookings db ∧ active_at start_ts b) →
     r = Raises (ValueError "Slot is already taken") ∧ state_after db r = db).
Proof.
  intros Huniq r. split.
  - destruct r as [[bid db']|e] eqn:Hr; simpl; [|done].
    apply add_booking_returns in Hr as (Hfree & _ & ->).
    intros ts. rewrite count_active_at_snoc.
    case_decide as Hact; [|specialize (Huniq ts); lia].
    destruct Hact as [Hts _]; simpl in Hts. subst ts. lia.
  - intros Htaken%slot_taken_iff. subst r.
    by rewrite add_booking_taken.
Qed.

Lemma deactivate_id bid b : b_id (deactivate bid b) = b_id b.
Proof. unfold deactivate. by case_decide. Qed.

Lemma deactivate_start_ts bid b : b_start_ts (deactivate bid b) = b_start_ts b.
Proof. unfold deactivate. by case_decide. Qed.

Lemma deactivate_idemp bid b : deactivate bid (deactivate bid b) = deactivate bid b.
Proof.
  unfold deactivate. destruct (decide (b_id b = bid)) as [Hid|Hid]; simpl.
  - by rewrite decide_True.
  - by rewrite decide_False.
Qed.

Lemma deactivate_inactive bid b : b_active b = 0 → deactivate bid b = b.
Proof. unfold deactivate. case_decide; [|done]. destruct b; simpl. by intros ->. Qed.

Lemma deactivate_other bid b : b_id b ≠ bid → deactivate bid b = b.
Proof. unfold deactivate. by case_decide. Qed.

(** Cancelling never makes a booking active. *)
Lemma active_at_deactivate bid ts b :
  active_at ts (deactivate bid b) ↔ active_at ts b ∧ b_id b ≠ bid.
Proof.
  unfold active_at, deactivate. case_decide; simpl; intuition congruence.
Qed.

Lemma length_filter_and {A} (P Q : A → Prop)
    `{∀ x, Decision (P x)} `{∀ x, Decision (Q x)} (l : list A) :
  (length (filter (λ x, P x ∧ Q x) l) ≤ length (filter P l))%nat.
Proof.
  induction l as [|x l IH]; [done|]. rewrite !filter_cons.
  destruct (decide (P x ∧ Q x)) as [[HP _]|Hn].
  - rewrite decide_True by done. simpl. lia.
  - destruct (decide (P x)); simpl; lia.
Qed.

Lemma count_active_at_cancel db bid ts :
  count_active_at (cancel_booking db bid) ts
  = length (filter (λ b, active_at ts b ∧ b_id b ≠ bid) (bookings db)).
Proof.
  unfold count_active_at, cancel_booking; simpl.
  induction (bookings db) as [|b bs IH]; [done|].
  rewrite fmap_cons, !filter_cons.
  destruct (decide (active_at ts (deactivate bid b))) as [Ha|Ha];
    rewrite active_at_deactivate in Ha;
    destruct (decide (active_at ts b ∧ b_id b ≠ bid)); try done; simpl; by rewrite IH.
Qed.

(** C4. For a free slot, [add_booking] succeeds, after it
    [is_slot_free] answers false for that [start_ts], and after
    [cancel_booking] of the id it returned, true again. *)
Theorem reserve_then_cancel_round_trip
    db clock user_id date time start_ts branch purpose :
  is_slot_free db start_ts = true →
  ∃ bid db',
    add_booking db clock user_id date time start_ts branch purpose = Returns (bid, db')
    ∧ is_slot_free db' start_ts = false
    ∧ is_slot_free (cancel_booking db' bid) start_ts = true.
Proof.
  intros Hfree.
  destruct (add_booking_free db clock user_id date time start_ts branch purpose Hfree)
    as (bid & db' & Hadd).
  exists bid, db'. split; [done|].
  apply add_booking_returns in Hadd as (Hc & Hbid & ->).
  unfold is_slot_free. split.
  - rewrite count_active_at_snoc, Hc. by rewrite decide_True.
  - apply Nat.eqb_eq. rewrite count_active_at_cancel. simpl.
    rewrite filter_app, length_app, filter_cons, filter_nil.
    rewrite decide_False by (simpl; intuition congruence). simpl.
    pose proof (length_filter_and (active_at start_ts) (λ b, b_id b ≠ bid) (bookings db))
      as Hle.
    cbv beta in Hle. unfold count_active_at in Hc. rewrite Hc in Hle.
    rewrite Nat.add_0_r. by apply Nat.le_0_r.
Qed.

Lemma cancelled_rows_cancel db bid :
  length (cancelled_rows (cancel_booking db bid) bid)
  = length (filter (λ b, b_id b = bid) (bookings db)).
Proof.
  unfold cancelled_rows, cancel_booking; simpl.
  induction (bookings db) as [|b bs IH]; [done|].
  rewrite fmap_cons, !filter_cons, deactivate_id.
  destruct (decide (b_id b = bid)) as [Hid|Hid].
  - rewrite decide_True; [simpl; by rewrite IH|].
    split; [done|]. unfold deactivate. by rewrite decide_True.
  - rewrite decide_False by intuition. done.
Qed.

Lemma filter_none {A} (P : A → Prop) `{∀ x, Decision (P x)} (l : list A) :
  (∀ x, x ∈ l → ¬ P x) → filter P l = [].
Proof.
  induction l as [|x l IH]; [done|]. intros Hall.
  rewrite filter_cons, decide_False by (apply Hall; left).
  apply IH. intros y Hy. apply Hall. by right.
Qed.

Lemma NoDup_fmap_filter_eq {A} (f : A → Z) (l : list A) (x : A) :
  NoDup (f <$> l) → x ∈ l → length (filter (λ y, f y = f x) l) = 1%nat.
Proof.
  induction l as [|y l IH]; [by intros _ ?%elem_of_nil|].
  rewrite fmap_cons, NoDup_cons, filter_cons.
  intros [Hy Hnd] [->|Hin]%elem_of_cons.
  - rewrite decide_True by done. simpl. f_equal.
    apply length_zero_iff_nil, filter_none.
    intros z Hz Heq. apply Hy. rewrite <- Heq. by apply list_elem_of_fmap_2.
  - rewrite decide_False; [by apply IH|].
    intros Heq. apply Hy. rewrite Heq. by apply list_elem_of_fmap_2.
Qed.

(** C8. [cancel_booking] returns normally on every input; a second call
    on the same id changes nothing; on an id that no booking has, or
    whose booking is already cancelled, the call changes nothing; and,
    ids being a primary key, two calls on a stored booking leave exactly
    one cancelled row for it. *)
Theorem cancel_booking_idempotent db bid :
  cancel_booking (cancel_booking db bid) bid = cancel_booking db bid
  ∧ ((∀ b, b ∈ bookings db → b_id b = bid → b_active b = 0) →
     cancel_booking db bid = db)
  ∧ (ids_unique db → (∃ b, b ∈ bookings db ∧ b_id b = bid) →
     length (cancelled_rows (cancel_booking (cancel_booking db bid) bid) bid) = 1%nat).
Proof.
  assert (cancel_booking (cancel_booking db bid) bid = cancel_booking db bid) as Hidem.
  { unfold cancel_booking; simpl. f_equal.
    rewrite <- list_fmap_compose. apply list_fmap_ext.
    intros i b _. apply deactivate_idemp. }
  split; [done|]. split.
  - intros Hno. destruct db as [us bs sq rs rsq cds tr].
    unfold cancel_booking, set_bookings; simpl in *. f_equal.
    rewrite <- (list_fmap_id bs) at 2. apply list_fmap_ext.
    intros i b Hb. destruct (decide (b_id b = bid)) as [Hid|Hid].
    + apply deactivate_inactive, Hno; [|done]. by eapply list_elem_of_lookup_2.
    + by apply deactivate_other.
  - intros Hpk (b & Hin & <-). rewrite Hidem, cancelled_rows_cancel.
    by apply NoDup_fmap_filter_eq.
Qed.

Lemma length_filter_key {A} (f : A → string) (k : string) (l : list A) :
  NoDup (f <$> l) → (length (filter (λ y, f y = k) l) ≤ 1)%nat.
Proof.
  induction l as [|x l IH]; [simpl; lia|].
  rewrite fmap_cons, NoDup_cons, filter_cons. intros [Hx Hnd].
  destruct (decide (f x = k)) as [Hk|Hk]; [|by apply IH].
  simpl. rewrite filter_none; [simpl; lia|].
  intros z Hz Heq. apply Hx. rewrite Hk, <- Heq. by apply list_elem_of_fmap_2.
Qed.

(** The invariant, as a condition that can be decided on a state. *)
Lemma slot_unique_of_NoDup db :
  NoDup (b_start_ts <$> filter (λ b, b_active b = 1) (bookings db)) → slot_unique db.
Proof.
  intros Hnd ts. unfold count_active_at.
  assert (filter (active_at ts) (bookings db)
          = filter (λ b, b_start_ts b = ts) (filter (λ b, b_active b = 1) (bookings db)))
    as ->; [|by apply length_filter_key].
  clear Hnd. induction (bookings db) as [|b bs IH]; [done|].
  rewrite !filter_cons.
  destruct (decide (b_active b = 1)) as [Ha|Ha].
  - rewrite filter_cons.
    destruct (decide (b_start_ts b = ts)) as [Hs|Hs].
    + rewrite decide_True by done. by rewrite IH.
    + rewrite decide_False by (by intros [? _]). done.
  - rewrite decide_False by (by intros [_ ?]). done.
Qed.

(** With the triggers of migration 006 installed, the insert alone keeps
    the invariant. *)
Lemma insert_booking_under_triggers db user_id date time start_ts branch purpose created :
  slot_triggers db = true → slot_unique db →
  slot_unique (state_after db (insert_booking db user_id date time start_ts
                                              branch purpose created)).
Proof.
  intros Htr Huniq. unfold insert_booking. rewrite Htr. simpl.
  destruct (count_active_at db start_ts) as [|n] eqn:Hc; simpl; [|done].
  intros ts. rewrite count_active_at_snoc.
  case_decide as Hact; [|specialize (Huniq ts); lia].
  destruct Hact as [Hts _]; simpl in Hts. subst ts. lia.
Qed.

Lemma migration_006_installs_triggers db :
  has_duplicate_slots db = false →
  slot_triggers (migration_006_add_unique_constraint_start_ts db) = true
  ∧ bookings (migration_006_add_unique_constraint_start_ts db) = bookings db.
Proof.
  intros Hd. unfold migration_006_add_unique_constraint_start_ts. by rewrite Hd.
Qed.

End SlotLedger.

(** ** Reminder ledger *)

Section ReminderLedger.
Context {L : PyDatetime}.

Implicit Types (db : database) (r : reminder) (b : booking) (x : reminder_row).

Lemma or_utc_aware d : is_Some (tzinfo (or_utc d)).
Proof.
  unfold or_utc. destruct (tzinfo d) as [o|] eqn:Ht; simpl; [|by eexists].
  rewrite Ht. by eexists.
Qed.


(** A parsed timestamp is aware. *)
Lemma _parse_start_ts_aware ts d :
  _parse_start_ts ts = Some d → is_Some (tzinfo d).
Proof.
  unfold _parse_start_ts. case_decide; [done|].
  destruct (fromisoformat ts); [intros [= <-]; apply or_utc_aware|].
  destruct (strptime_T ts); [intros [= <-]; apply or_utc_aware|done].
Qed.


(** Between aware values the order is the order of the instants. *)
Lemma dt_compare_aware a c :
  is_Some (tzinfo a) → is_Some (tzinfo c) →
  dt_compare a c = Some (instant a ?= instant c).
Proof. intros [oa Ha] [oc Hc]. unfold dt_compare. by rewrite Ha, Hc. Qed.

Lemma dt_le_aware a c :
  is_Some (tzinfo a) → is_Some (tzinfo c) →
  dt_le a c = Some (instant a <=? instant c).
Proof.
  intros Ha Hc. unfold dt_le. rewrite dt_compare_aware by done. simpl.
  unfold Z.leb. by destruct (instant a ?= instant c).
Qed.



(** The rows of the join, reminder by reminder. *)
Lemma elem_of_join_unsent db x :
  x ∈ join_unsent db ↔
  ∃ r b, r ∈ reminders db ∧ b ∈ bookings db ∧ b_id b = r_booking_id r
         ∧ r_sent r = 0 ∧ b_active b = 1
         ∧ x = ReminderRow r (b_start_ts b) (b_purpose b) (b_branch b)
                           (u_lang <$> users db !! r_user_id r).
Proof.
  unfold join_unsent. rewrite list_elem_of_bind. split.
  - intros (r & Hx & Hr). apply list_elem_of_bind in Hx as (b & Hx & Hb).
    apply list_elem_of_filter in Hb as [Hid Hb].
    case_decide as Hc; [|by apply elem_of_nil in Hx].
    apply list_elem_of_singleton in Hx. destruct Hc. eauto 10.
  - intros (r & b & Hr & Hb & Hid & Hs & Ha & ->).
    exists r. split; [|done]. apply list_elem_of_bind. exists b. split.
    + rewrite decide_True by done. apply list_elem_of_singleton. done.
    + by apply list_elem_of_filter.
Qed.

Lemma elem_of_get_unsent_reminders db x :
  x ∈ get_unsent_reminders db ↔ x ∈ join_unsent db.
Proof. unfold get_unsent_reminders. by rewrite merge_sort_Permutation. Qed.



(** The listings that parse return no booking whose [start_ts] does not
    parse, and none that is past or inactive. *)
Lemma elem_of_parsed_upcoming clock (rows : list booking) d b :
  (d, b) ∈ parsed_upcoming clock rows →
  b ∈ rows ∧ _parse_start_ts (b_start_ts b) = Some d ∧ clock ≤ instant d.
Proof.
  unfold parsed_upcoming. intros (b0 & Hin & Hb0)%list_elem_of_bind.
  destruct (_parse_start_ts (b_start_ts b0)) as [d0|] eqn:Hp;
    [|by apply elem_of_nil in Hin].
  unfold dt_ge in Hin.
  rewrite dt_le_aware in Hin by eauto using _parse_start_ts_aware.
  change (instant (now_utc clock)) with (clock - 0) in Hin.
  destruct (Z.leb_spec (clock - 0) (instant d0));
    [|by apply elem_of_nil in Hin].
  apply list_elem_of_singleton in Hin as [= -> ->]. split; [done|]. split; [done|lia].
Qed.

Lemma list_upcoming_bookings_parsed db clock b :
  b ∈ list_upcoming_bookings db clock →
  b ∈ bookings db ∧ b_active b = 1
  ∧ ∃ d, _parse_start_ts (b_start_ts b) = Some d ∧ clock ≤ instant d.
Proof.
  unfold list_upcoming_bookings.
  intros ([d b'] & -> & Hin)%list_elem_of_fmap.
  rewrite merge_sort_Permutation in Hin.
  apply elem_of_parsed_upcoming in Hin as (Hb & Hp & Hle). simpl.
  apply list_elem_of_filter in Hb as [Ha Hb]. eauto.
Qed.

End ReminderLedger.

(** ** Migration runner *)

Section MigrationRunner.
Import Migrations.
Context {S : Type}.

Implicit Types (M pending done rest : list (string * migrate_func S))
               (st : store S) (names : list string).







End MigrationRunner.

(** ** Weekly quota *)

Section Quota.
Context {L : PyDatetime}.
Variable TZ : Z.
Variable ADMIN_IDS : list Z.

Import Bot.

Implicit Types (db : database) (d : datetime).










End Quota.

(** ** Closed dates *)

Section ClosedDates.
Context {L : PyDatetime}.
Variable TZ : Z.
Variable ADMIN_IDS : list Z.

Import Bot.

Implicit Types (db : database).


Lemma get_closed_date_reason_add db clock date reason :
  get_closed_date_reason (add_closed_date db clock date reason) date = Some reason.
Proof.
  unfold get_closed_date_reason, add_closed_date; simpl.
  by rewrite lookup_insert_eq.
Qed.








End ClosedDates.

(** ** Startup replay *)

Section Startup.
Context {L : PyDatetime}.
Variable ADMIN_IDS : list Z.

Import Bot.

Implicit Types (db : database) (x : reminder_row).





End Startup.

(** ** The properties on the example states *)

Import Bot Examples.

Lemma one_booking_slot_unique : slot_unique one_booking.
Proof.
  apply slot_unique_of_NoDup. apply (bool_decide_unpack _). vm_compute. exact I.
Defined.

Lemma add_booking_preserves_slot_unique_witness :
  slot_unique one_booking
  ∧ slot_unique
      (state_after one_booking
         (add_booking one_booking wednesday_morning 8 "2025-06-05" "14:30"
                      "2025-06-05T09:30:00+00:00" "branch_1" "Reading"))
  ∧ add_booking one_booking wednesday_morning 8 "2025-06-05" "14:00"
                "2025-06-05T09:00:00+00:00" "branch_1" "Reading"
    = Raises (ValueError "Slot is already taken").
Proof.
  split; [exact one_booking_slot_unique|]. split.
  - exact (proj1 (add_booking_preserves_slot_unique one_booking wednesday_morning 8
                    "2025-06-05" "14:30" "2025-06-05T09:30:00+00:00" "branch_1"
                    "Reading" one_booking_slot_unique)).
  - refine (proj1 (proj2 (add_booking_preserves_slot_unique one_booking
                            wednesday_morning 8 "2025-06-05" "14:00"
                            "2025-06-05T09:00:00+00:00" "branch_1" "Reading"
                            one_booking_slot_unique) _)).
    exists (Booking 1 7 "2025-06-05" "14:00" "2025-06-05T09:00:00+00:00" "branch_1"
                    "Grammar" 1 "2025-06-04T08:00:00+00:00").
    split; [|split; reflexivity].
    apply (bool_decide_unpack _). vm_compute. exact I.
Defined.

Lemma reserve_then_cancel_round_trip_witness :
  is_slot_free one_booking "2025-06-05T09:30:00+00:00" = true
  ∧ ∃ bid db',
      add_booking one_booking wednesday_morning 8 "2025-06-05" "14:30"
                  "2025-06-05T09:30:00+00:00" "branch_1" "Reading" = Returns (bid, db')
      ∧ is_slot_free db' "2025-06-05T09:30:00+00:00" = false
      ∧ is_slot_free (cancel_booking db' bid) "2025-06-05T09:30:00+00:00" = true.
Proof.
  assert (is_slot_free one_booking "2025-06-05T09:30:00+00:00" = true) as Hfree
    by (vm_compute; reflexivity).
  split; [exact Hfree|].
  exact (reserve_then_cancel_round_trip one_booking wednesday_morning 8 "2025-06-05"
           "14:30" "2025-06-05T09:30:00+00:00" "branch_1" "Reading" Hfree).
Defined.

Lemma cancel_booking_idempotent_witness :
  ids_unique one_booking
  ∧ cancel_booking (cancel_booking one_booking 1) 1 = cancel_booking one_booking 1
  ∧ cancel_booking one_booking 2 = one_booking
  ∧ length (cancelled_rows (cancel_booking (cancel_booking one_booking 1) 1) 1) = 1%nat.
Proof.
  assert (ids_unique one_booking) as Hpk
    by (apply (bool_decide_unpack _); vm_compute; exact I).
  destruct (cancel_booking_idempotent one_booking 1) as (Hidem & _ & Hone).
  destruct (cancel_booking_idempotent one_booking 2) as (_ & Hnoop & _).
  split; [exact Hpk|]. split; [exact Hidem|]. split.
  - apply Hnoop. intros b Hb Hid. exfalso.
    assert (b_id b = 1) as Hone'.
    { assert (b_id b ∈ b_id <$> bookings one_booking) as Hin
        by (by apply list_elem_of_fmap_2).
      vm_compute in Hin. apply list_elem_of_singleton in Hin. exact Hin. }
    lia.
  - apply Hone; [exact Hpk|].
    exists (Booking 1 7 "2025-06-05" "14:00" "2025-06-05T09:00:00+00:00" "branch_1"
                    "Grammar" 1 "2025-06-04T08:00:00+00:00").
    split; [|reflexivity]. apply (bool_decide_unpack _). vm_compute. exact I.
Defined.



(** The run of the three migrations, and the run after it. *)
Example three_migrations_run :
  let r := Migrations.run_all_migrations three_migrations (Migrations.Store 0 None) in
  Migrations.started (Migrations.log r) = ["001_first"; "002_second"]%string
  ∧ Migrations.applied_of (Migrations.final r) = ["001_first"]%string
  ∧ Migrations.started
      (Migrations.log (Migrations.run_all_migrations three_migrations (Migrations.final r)))
    = ["002_second"]%string.
Proof. vm_compute. done. Qed.






(** C7. On [mixed_formats], at 05:00 UTC of 2025-06-10, the paginated
    listing and its total compare [start_ts] as text: they hold the
    booking of 04:00 UTC, which is past, and miss the booking of 23:00
    UTC, which is ahead; [list_upcoming_bookings], which parses, returns
    the booking ahead and only it. *)
Theorem paginated_listing_compares_text :
  get_upcoming_bookings_paginated mixed_formats tuesday_five_utc 10 0 = [early_booking]
  ∧ count_upcoming_bookings mixed_formats tuesday_five_utc = 1
  ∧ list_upcoming_bookings mixed_formats tuesday_five_utc = [late_booking]
  ∧ (∃ d, _parse_start_ts (b_start_ts early_booking) = Some d
          ∧ instant d < tuesday_five_utc)
  ∧ (∃ d, _parse_start_ts (b_start_ts late_booking) = Some d
          ∧ tuesday_five_utc ≤ instant d).
Proof.
  split; [vm_compute; reflexivity|]. split; [vm_compute; reflexivity|].
  split; [vm_compute; reflexivity|]. split.
  - exists (DateTime (clock_at "2025-06-10T09:00:00") (Some TASHKENT)).
    split; vm_compute; reflexivity.
  - exists (DateTime (clock_at "2025-06-10T23:00:00") (Some 0)).
    split; [vm_compute; reflexivity|]. vm_compute. discriminate.
Qed.

(** C10. On a text with an offset other than UTC, [_parse_start_ts]
    returns an aware value that keeps that offset: its [tzinfo] is not
    UTC, though its instant is the one the text denotes. *)
Theorem parse_start_ts_keeps_offset :
  _parse_start_ts "2025-06-10T10:00:00+05:00"
  = Some (DateTime (clock_at "2025-06-10T10:00:00") (Some TASHKENT))
  ∧ Some TASHKENT ≠ utc
  ∧ instant (DateTime (clock_at "2025-06-10T10:00:00") (Some TASHKENT))
    = clock_at "2025-06-10T05:00:00+00:00".
Proof.
  split; [vm_compute; reflexivity|].
  split; [vm_compute; discriminate|vm_compute; reflexivity].
Qed.

(** * Further properties *)

(** ** The store: deletion, reminders *)

Section StoreMore.

Implicit Types (db : database) (b : booking) (r : reminder) (x : reminder_row).

(** X1. [delete_booking] removes the booking and the reminders that
    refer to it, and nothing else: afterwards the id is not found, it has
    no reminders, every other booking and every reminder of another
    booking is still stored, and a second call changes nothing. *)
Theorem delete_booking_cascades db bid :
  get_booking (delete_booking db bid) bid = None
  ∧ get_reminders_for_booking (delete_booking db bid) bid = []
  ∧ (∀ b, b ∈ bookings (delete_booking db bid) ↔ b ∈ bookings db ∧ b_id b ≠ bid)
  ∧ (∀ r, r ∈ reminders (delete_booking db bid) ↔ r ∈ reminders db ∧ r_booking_id r ≠ bid)
  ∧ delete_booking (delete_booking db bid) bid = delete_booking db bid.
Proof.
  unfold get_booking, get_reminders_for_booking, delete_booking,
    delete_reminders_for_booking; simpl.
  split; [|split; [|split; [|split]]].
  - rewrite filter_none; [done|]. by intros b [Hne _]%list_elem_of_filter.
  - apply filter_none. by intros r [Hne _]%list_elem_of_filter.
  - intros b. rewrite list_elem_of_filter. tauto.
  - intros r. rewrite list_elem_of_filter. tauto.
  - unfold set_bookings, set_reminders; simpl. f_equal.
    + apply list_filter_filter_l. done.
    + apply list_filter_filter_l. done.
Qed.

Lemma mark_sent_id rid r : r_id (mark_sent rid r) = r_id r.
Proof. unfold mark_sent. by case_decide. Qed.

Lemma mark_sent_unsent rid r :
  r_sent (mark_sent rid r) = 0 ↔ r_sent r = 0 ∧ r_id r ≠ rid.
Proof. unfold mark_sent. case_decide; simpl; intuition congruence. Qed.

Lemma mark_sent_other rid r : r_id r ≠ rid → mark_sent rid r = r.
Proof. unfold mark_sent. by case_decide. Qed.

Lemma elem_of_join_unsent_marked db rid x :
  x ∈ join_unsent (mark_reminder_sent db rid)
  ↔ x ∈ join_unsent db ∧ r_id (rr_reminder x) ≠ rid.
Proof.
  rewrite !elem_of_join_unsent. simpl. split.
  - intros (r' & b & Hr & Hb & Hid & Hs & Ha & ->).
    apply list_elem_of_fmap in Hr as (r & -> & Hr).
    apply mark_sent_unsent in Hs as [Hs Hne].
    rewrite (mark_sent_other rid r Hne) in *. simpl. split; [|done].
    exists r, b. done.
  - intros [(r & b & Hr & Hb & Hid & Hs & Ha & ->) Hne]. simpl in Hne.
    exists r, b. split; [|done].
    apply list_elem_of_fmap. exists r. split; [|done].
    symmetry. by apply mark_sent_other.
Qed.

(** X2. [mark_reminder_sent] can be repeated: a second call changes
    nothing. After it the reminder of that id is no longer among the
    unsent reminders, and every other unsent reminder still is; bookings
    are untouched. *)
Theorem mark_reminder_sent_idempotent db rid :
  mark_reminder_sent (mark_reminder_sent db rid) rid = mark_reminder_sent db rid
  ∧ (∀ x, x ∈ get_unsent_reminders (mark_reminder_sent db rid)
          ↔ x ∈ get_unsent_reminders db ∧ r_id (rr_reminder x) ≠ rid)
  ∧ bookings (mark_reminder_sent db rid) = bookings db.
Proof.
  split; [|split; [|done]].
  - unfold mark_reminder_sent, set_reminders; simpl. f_equal.
    rewrite <- list_fmap_compose. apply list_fmap_ext. intros i r _. simpl.
    destruct (decide (r_id r = rid)) as [Hid|Hid].
    + unfold mark_sent. rewrite (decide_True (P := r_id r = rid)) by done.
      simpl. by rewrite decide_True.
    + by rewrite !(mark_sent_other rid r Hid).
  - intros x. rewrite !elem_of_get_unsent_reminders.
    apply elem_of_join_unsent_marked.
Qed.

(** X3. [save_reminder] gives the reminder an id that no stored reminder
    has, so ids stay a primary key; the reminder is stored unsent, the
    last of its booking, and when that booking is stored and active it is
    among the unsent reminders. *)
Theorem save_reminder_fresh db clock bid user_id admin_id kind remind_time scheduled b :
  b ∈ bookings db → b_id b = bid → b_active b = 1 →
  NoDup (r_id <$> reminders db) →
  let rid := (save_reminder db clock bid user_id admin_id kind remind_time scheduled).1 in
  let db' := (save_reminder db clock bid user_id admin_id kind remind_time scheduled).2 in
  let row := Reminder rid bid user_id admin_id kind remind_time scheduled 0
                      (Iso.isoformat (now_utc clock)) in
  (∀ r, r ∈ reminders db → r_id r ≠ rid)
  ∧ NoDup (r_id <$> reminders db')
  ∧ get_reminders_for_booking db' bid = get_reminders_for_booking db bid ++ [row]
  ∧ ReminderRow row (b_start_ts b) (b_purpose b) (b_branch b)
                (u_lang <$> users db !! user_id) ∈ get_unsent_reminders db'
  ∧ bookings db' = bookings db.
Proof.
  intros Hb Hid Hact Hnd rid db' row.
  assert (∀ r, r ∈ reminders db → r_id r ≠ rid) as Hfresh
    by (intros r Hr; by apply next_rowid_fresh).
  split; [done|]. split; [|split; [|split; [|done]]].
  - unfold db', save_reminder; simpl. rewrite fmap_app. apply NoDup_app.
    split; [done|]. split; [|apply NoDup_singleton].
    intros i (r & -> & Hr)%list_elem_of_fmap Heq%list_elem_of_singleton.
    by apply (Hfresh r).
  - unfold get_reminders_for_booking, db', save_reminder; simpl.
    rewrite filter_app. f_equal. rewrite filter_cons, decide_True by done. done.
  - apply elem_of_get_unsent_reminders, elem_of_join_unsent.
    exists row, b. unfold db', save_reminder; simpl.
    split; [apply elem_of_app; right; apply list_elem_of_singleton; done|]. done.
Qed.

Lemma count_active_at_filter db (P : booking → Prop) `{∀ b, Decision (P b)} seq ts :
  (count_active_at (set_bookings db (filter P (bookings db)) seq) ts
   ≤ count_active_at db ts)%nat.
Proof.
  unfold count_active_at; simpl. rewrite list_filter_filter.
  pose proof (length_filter_and (active_at ts) P (bookings db)) as Hle.
  cbv beta in Hle. done.
Qed.

(** X4. Removing bookings keeps the slots unique: [cancel_booking],
    [delete_booking] and [delete_past_bookings] all leave at most one
    active booking for each [start_ts] when there was at most one. *)
Theorem removals_preserve_slot_unique db bid clock :
  slot_unique db →
  slot_unique (cancel_booking db bid)
  ∧ slot_unique (delete_booking db bid)
  ∧ slot_unique (delete_past_bookings db clock).
Proof.
  intros Huniq. split; [|split]; intros ts; specialize (Huniq ts).
  - rewrite count_active_at_cancel.
    pose proof (length_filter_and (active_at ts) (λ b, b_id b ≠ bid) (bookings db)) as Hle.
    cbv beta in Hle. unfold count_active_at in Huniq. lia.
  - unfold delete_booking.
    etrans; [apply (count_active_at_filter _ (λ b, b_id b ≠ bid))|].
    done.
  - unfold delete_past_bookings.
    destruct (b_id <$> filter _ (bookings db)) as [|i ids]; [done|].
    etrans; [apply (count_active_at_filter _ (λ b, b_id b ∉ i :: ids))|].
    done.
Qed.

End StoreMore.

(** ** The store: purge and listings *)

Section ListingsMore.
Context {L : PyDatetime}.

Implicit Types (db : database) (b : booking) (r : reminder).

Lemma elem_of_delete_by_ids_bookings db ids b :
  b ∈ bookings (delete_by_ids db ids) ↔ b ∈ bookings db ∧ b_id b ∉ ids.
Proof.
  unfold delete_by_ids. destruct ids as [|i ids]; simpl.
  - split; [|tauto]. intros Hb. split; [done|]. apply not_elem_of_nil.
  - rewrite list_elem_of_filter. tauto.
Qed.

Lemma elem_of_delete_by_ids_reminders db ids r :
  r ∈ reminders (delete_by_ids db ids) ↔ r ∈ reminders db ∧ r_booking_id r ∉ ids.
Proof.
  unfold delete_by_ids. destruct ids as [|i ids]; simpl.
  - split; [|tauto]. intros Hb. split; [done|]. apply not_elem_of_nil.
  - rewrite list_elem_of_filter. tauto.
Qed.

Lemma delete_past_bookings_by_ids db clock :
  delete_past_bookings db clock
  = delete_by_ids db
      (b_id <$> filter (λ b, String.ltb (b_start_ts b) (Iso.isoformat (now_utc clock)) = true)
                       (bookings db)).
Proof. reflexivity. Qed.

(** X5. [delete_past_bookings] leaves no booking whose [start_ts] text is
    below the text of now, whether active or not, and no reminder of a
    booking it deleted; ids being a primary key, every booking that is not
    past is kept, and so is every reminder that belongs to none of the
    past bookings. Running it again at the same time changes nothing. *)
Theorem delete_past_bookings_cascades db clock :
  let now_text := Iso.isoformat (now_utc clock) in
  let db' := delete_past_bookings db clock in
  (∀ b, b ∈ bookings db' → b ∈ bookings db ∧ String.ltb (b_start_ts b) now_text = false)
  ∧ (∀ r b, r ∈ reminders db' → b ∈ bookings db → b_id b = r_booking_id r →
            String.ltb (b_start_ts b) now_text = false)
  ∧ (ids_unique db →
     ∀ b, b ∈ bookings db → String.ltb (b_start_ts b) now_text = false → b ∈ bookings db')
  ∧ (∀ r, r ∈ reminders db →
          (∀ b, b ∈ bookings db → b_id b = r_booking_id r →
                String.ltb (b_start_ts b) now_text = false) →
          r ∈ reminders db')
  ∧ delete_past_bookings db' clock = db'.
Proof.
  intros now_text db'.
  set (past := λ b : booking, String.ltb (b_start_ts b) now_text = true).
  assert (∀ b, b ∈ bookings db → b_id b ∉ b_id <$> filter past (bookings db) →
               String.ltb (b_start_ts b) now_text = false) as Hkept.
  { intros b Hb Hnot. destruct (String.ltb (b_start_ts b) now_text) eqn:Hlt; [|done].
    exfalso. apply Hnot. apply list_elem_of_fmap_2. by apply list_elem_of_filter. }
  assert (∀ b, b ∈ bookings db' → b ∈ bookings db ∧ String.ltb (b_start_ts b) now_text = false)
    as Hnone.
  { intros b Hb. unfold db' in Hb. rewrite delete_past_bookings_by_ids in Hb.
    apply elem_of_delete_by_ids_bookings in Hb as [Hb Hnot]. split; [done|].
    by apply Hkept. }
  split; [done|]. split; [|split; [|split]].
  - intros r b Hr Hb Hid. unfold db' in Hr. rewrite delete_past_bookings_by_ids in Hr.
    apply elem_of_delete_by_ids_reminders in Hr as [Hr Hnot].
    apply Hkept; [done|]. by rewrite Hid.
  - intros Hpk b Hb Hlt. unfold db'. rewrite delete_past_bookings_by_ids.
    apply elem_of_delete_by_ids_bookings. split; [done|].
    intros (b' & Hid & [Hpast Hb']%list_elem_of_filter)%list_elem_of_fmap.
    assert (b = b') as <-.
    { apply list_elem_of_lookup in Hb as [i Hi]. apply list_elem_of_lookup in Hb' as [j Hj].
      assert (i = j) as <-.
      { eapply NoDup_lookup; [exact Hpk|..].
        - by rewrite list_lookup_fmap, Hi.
        - by rewrite list_lookup_fmap, Hj, Hid. }
      congruence. }
    unfold past, now_text in *. cbv beta in Hpast. congruence.
  - intros r Hr Hall. unfold db'. rewrite delete_past_bookings_by_ids.
    apply elem_of_delete_by_ids_reminders. split; [done|].
    intros (b & Hid & [Hpast Hb]%list_elem_of_filter)%list_elem_of_fmap.
    specialize (Hall b Hb (eq_sym Hid)). unfold past, now_text in *.
    cbv beta in Hpast. congruence.
  - unfold delete_past_bookings at 1. fold now_text.
    rewrite (filter_none (λ b, String.ltb (b_start_ts b) now_text = true)); [done|].
    intros b Hb Hp. apply Hnone in Hb as [_ Hb]. congruence.
Qed.

Lemma parsed_upcoming_snd clock (rows : list booking) :
  (parsed_upcoming clock rows).*2 = filter (is_upcoming clock) rows.
Proof.
  induction rows as [|b rows IH]; [done|].
  rewrite filter_cons. unfold parsed_upcoming in *. rewrite bind_cons, fmap_app, IH.
  assert (is_upcoming clock b ↔
          ∃ d, _parse_start_ts (b_start_ts b) = Some d ∧ clock ≤ instant d) as Hup.
  { unfold is_upcoming. destruct (_parse_start_ts _) as [d|].
    - split; [eauto|]. by intros (d' & [= <-] & ?).
    - split; [done|]. by intros (d' & [=] & _). }
  destruct (_parse_start_ts (b_start_ts b)) as [d|] eqn:Hp.
  - unfold dt_ge. rewrite dt_le_aware by eauto using _parse_start_ts_aware.
    change (instant (now_utc clock)) with (clock - 0).
    destruct (Z.leb_spec (clock - 0) (instant d)).
    + rewrite decide_True by (apply Hup; exists d; split; [done|lia]). done.
    + rewrite decide_False; [done|]. rewrite Hup. intros (d' & [= <-] & ?). lia.
  - rewrite decide_False; [done|]. rewrite Hup. by intros (d' & [=] & _).
Qed.

Lemma parsed_upcoming_parsed clock (rows : list booking) d b :
  (d, b) ∈ parsed_upcoming clock rows → _parse_start_ts (b_start_ts b) = Some d.
Proof. by intros (_ & ? & _)%elem_of_parsed_upcoming. Qed.

#[local] Instance parsed_le_total : Total parsed_le.
Proof. intros x y. unfold parsed_le. lia. Qed.

(** X6. [list_upcoming_bookings] returns, once each, the active bookings
    whose [start_ts] parses to an instant not before now, in ascending
    order of the parsed instant. *)
Theorem list_upcoming_bookings_sorted db clock :
  list_upcoming_bookings db clock
  ≡ₚ filter (λ b, is_upcoming clock b) (filter (λ b, b_active b = 1) (bookings db))
  ∧ ∃ l, list_upcoming_bookings db clock = l.*2
         ∧ Sorted parsed_le l
         ∧ ∀ d b, (d, b) ∈ l → _parse_start_ts (b_start_ts b) = Some d.
Proof.
  unfold list_upcoming_bookings. split.
  - rewrite merge_sort_Permutation. by rewrite parsed_upcoming_snd.
  - eexists. split; [done|]. split; [apply Sorted_merge_sort, _|].
    intros d b Hin. rewrite merge_sort_Permutation in Hin.
    by eapply parsed_upcoming_parsed.
Qed.

(** X7. [list_user_bookings] returns, once each, the active bookings of
    the user whose [start_ts] parses to an instant not before now, in
    ascending order of the parsed instant; bookings of other users,
    cancelled, past or unparsable ones are left out. *)
Theorem list_user_bookings_sorted db clock user_id :
  list_user_bookings db clock user_id
  ≡ₚ filter (λ b, is_upcoming clock b) (filter (active_of user_id) (bookings db))
  ∧ ∃ l, list_user_bookings db clock user_id = l.*2
         ∧ Sorted parsed_le l
         ∧ ∀ d b, (d, b) ∈ l → _parse_start_ts (b_start_ts b) = Some d.
Proof.
  unfold list_user_bookings. split.
  - rewrite merge_sort_Permutation. by rewrite parsed_upcoming_snd.
  - eexists. split; [done|]. split; [apply Sorted_merge_sort, _|].
    intros d b Hin. rewrite merge_sort_Permutation in Hin.
    by eapply parsed_upcoming_parsed.
Qed.

End ListingsMore.

(** ** The store: the paginated listing *)

Section Pagination.

Import Bot.

Implicit Types (db : database) (b : booking).

Lemma StronglySorted_sublist {A} (R : relation A) (l1 l2 : list A) :
  l1 `sublist_of` l2 → StronglySorted R l2 → StronglySorted R l1.
Proof.
  induction 1 as [|x l1 l2 Hsub IH|x l1 l2 Hsub IH]; intros Hs.
  - constructor.
  - apply StronglySorted_inv in Hs as [Hs Hall]. constructor; [by apply IH|].
    apply Forall_forall. intros y Hy. rewrite Forall_forall in Hall.
    apply Hall. by eapply elem_of_sublist.
  - apply StronglySorted_inv in Hs as [Hs _]. by apply IH.
Qed.

Lemma limit_offset_sublist {A} limit offset (l : list A) :
  limit_offset limit offset l `sublist_of` l.
Proof.
  unfold limit_offset. destruct (limit <? 0).
  - apply sublist_drop.
  - etrans; [apply sublist_take|apply sublist_drop].
Qed.

#[local] Instance start_ts_le_trans : Transitive start_ts_le.
Proof. intros x y z. unfold start_ts_le. apply transitivity. Qed.

#[local] Instance start_ts_le_total : Total start_ts_le.
Proof. intros x y. unfold start_ts_le. apply String.le_total. Qed.

(** X8. Every row of [get_upcoming_bookings_paginated] is a stored,
    active booking whose [start_ts] text is not below the text of now;
    the rows are in ascending order of the [start_ts] text, and with a
    limit that is not negative there are at most that many. *)
Theorem paginated_rows_sorted_by_text db clock limit offset :
  let page := get_upcoming_bookings_paginated db clock limit offset in
  (∀ b, b ∈ page →
        b ∈ bookings db ∧ b_active b = 1
        ∧ String.le (Iso.isoformat (now_utc clock)) (b_start_ts b))
  ∧ StronglySorted start_ts_le page
  ∧ (0 ≤ limit → (length page ≤ Z.to_nat limit)%nat).
Proof.
  intros page. unfold page, get_upcoming_bookings_paginated.
  split; [|split].
  - intros b Hb. eapply elem_of_sublist in Hb; [|apply limit_offset_sublist].
    rewrite merge_sort_Permutation in Hb.
    apply list_elem_of_filter in Hb as [[Ha Hle] Hb]. done.
  - apply (StronglySorted_sublist _ _ _ (limit_offset_sublist _ _ _)).
    apply StronglySorted_merge_sort; apply _.
  - intros Hlim. unfold limit_offset.
    destruct (Z.ltb_spec limit 0); [lia|].
    rewrite length_take. lia.
Qed.

Lemma join_chunks {A} (k n : nat) (l : list A) :
  mjoin ((λ i, take k (drop (i * k) l)) <$> seq 0 n) = take (n * k) l.
Proof.
  induction n as [|n IH]; [done|].
  rewrite seq_S, fmap_app, join_app, IH. simpl.
  rewrite app_nil_r, take_take_drop. f_equal. lia.
Qed.

Lemma manage_view_page_chunk db clock (i : nat) :
  manage_view_page db clock (Z.of_nat (S i))
  = take 10 (drop (i * 10) (get_upcoming_bookings_paginated db clock (-1) 0)).
Proof.
  unfold manage_view_page, get_upcoming_bookings_paginated, limit_offset, items_per_page.
  simpl (_ <? _). cbv iota. rewrite drop_0.
  replace (Z.to_nat ((Z.of_nat (S i) - 1) * 10)) with (i * 10)%nat by lia.
  reflexivity.
Qed.

(** X9. The pages of the admin view cut the listing into tens: pages 1
    to [total_pages], one after the other, are the whole listing, each of
    them holds between one and ten bookings, every later page is empty,
    and the total [count_upcoming_bookings] reports is the number of
    bookings on these pages. *)
Theorem manage_view_pages_partition db clock :
  let full := get_upcoming_bookings_paginated db clock (-1) 0 in
  let total_pages := manage_view_total_pages db clock in
  count_upcoming_bookings db clock = Z.of_nat (length full)
  ∧ mjoin (manage_view_page db clock <$> (Z.of_nat <$> seq 1 (Z.to_nat total_pages))) = full
  ∧ (∀ i : nat, (i < Z.to_nat total_pages)%nat →
       manage_view_page db clock (Z.of_nat (S i)) ≠ []
       ∧ (length (manage_view_page db clock (Z.of_nat (S i))) ≤ 10)%nat)
  ∧ (∀ i : nat, (Z.to_nat total_pages ≤ i)%nat →
       manage_view_page db clock (Z.of_nat (S i)) = []).
Proof.
  intros full total_pages.
  assert (count_upcoming_bookings db clock = Z.of_nat (length full)) as Hcount.
  { unfold count_upcoming_bookings, full, get_upcoming_bookings_paginated, limit_offset.
    simpl (_ <? _). cbv iota. rewrite drop_0. f_equal. symmetry.
    apply Permutation_length, merge_sort_Permutation. }
  assert (Z.of_nat (length full) ≤ total_pages * 10 < Z.of_nat (length full) + 10)
    as Hpages.
  { unfold total_pages, manage_view_total_pages, items_per_page. rewrite Hcount.
    pose proof (Z.div_mod (Z.of_nat (length full) + 10 - 1) 10 ltac:(lia)).
    pose proof (Z.mod_pos_bound (Z.of_nat (length full) + 10 - 1) 10 ltac:(lia)).
    lia. }
  split; [done|]. split; [|split].
  - assert (manage_view_page db clock <$> (Z.of_nat <$> seq 1 (Z.to_nat total_pages))
            = (λ i, take 10 (drop (i * 10) full)) <$> seq 0 (Z.to_nat total_pages)) as ->.
    { rewrite <- list_fmap_compose, <- (fmap_add_seq 1 0), <- list_fmap_compose.
      apply list_fmap_ext. intros _ i _. simpl. apply manage_view_page_chunk. }
    rewrite join_chunks. apply take_ge. lia.
  - intros i Hi. rewrite manage_view_page_chunk. fold full. split.
    + intros Hnil. apply (f_equal length) in Hnil.
      rewrite length_take, length_drop in Hnil. change (length []) with 0%nat in Hnil.
      lia.
    + rewrite length_take. lia.
  - intros i Hi. rewrite manage_view_page_chunk. fold full.
    rewrite drop_ge; [done|]. lia.
Qed.

End Pagination.

(** ** The store: quota count at its edges, rescheduling *)

Section CountEdges.
Context {L : PyDatetime}.

Implicit Types (db : database) (b : booking).

Lemma parsable_iff ts : parsable ts ↔ ∃ d, _parse_start_ts ts = Some d.
Proof. done. Qed.

Lemma count_rows_unbounded rows c :
  count_rows None None rows c
  = Returns (c + Z.of_nat (length (filter parsable rows))).
Proof.
  revert c. induction rows as [|ts rows IH]; intros c.
  - simpl. f_equal. lia.
  - rewrite filter_cons. cbn [count_rows].
    destruct (_parse_start_ts ts) as [d|] eqn:Hp.
    + rewrite decide_True by (apply parsable_iff; eauto).
      simpl. rewrite IH. simpl. f_equal. lia.
    + rewrite decide_False; [apply IH|].
      rewrite parsable_iff. intros [d Hd]. congruence.
Qed.

Lemma length_filter_fmap_start_ts (P : string → Prop) `{∀ ts, Decision (P ts)}
    (Q : booking → Prop) `{∀ b, Decision (Q b)} (bs : list booking) :
  length (filter P (b_start_ts <$> filter Q bs))
  = length (filter (λ b, Q b ∧ P (b_start_ts b)) bs).
Proof.
  induction bs as [|b bs IH]; [done|].
  rewrite !filter_cons.
  destruct (decide (Q b)) as [Hq|Hq].
  - rewrite fmap_cons, filter_cons.
    destruct (decide (P (b_start_ts b))) as [Hp|Hp].
    + rewrite decide_True by done. simpl. by rewrite IH.
    + rewrite decide_False by (by intros [_ ?]). done.
  - rewrite decide_False by (by intros [? _]). done.
Qed.

(** X10. When neither bound of the week is a text [fromisoformat]
    accepts, [count_user_bookings_in_week] applies no window: it counts
    every active booking of the user whose [start_ts] parses. *)
Theorem count_user_bookings_without_bounds db user_id week_start_ts week_end_ts :
  fromisoformat week_start_ts = None →
  fromisoformat week_end_ts = None →
  count_user_bookings_in_week db user_id week_start_ts week_end_ts
  = Returns (Z.of_nat (length (filter (λ b, active_of user_id b ∧ parsable (b_start_ts b))
                                      (bookings db)))).
Proof.
  intros Hs He. unfold count_user_bookings_in_week.
  rewrite <- (length_filter_fmap_start_ts parsable (active_of user_id)).
  destruct (b_start_ts <$> filter (active_of user_id) (bookings db)) as [|ts rows];
    [done|].
  rewrite Hs, He, count_rows_unbounded. f_equal.
Qed.

Lemma count_rows_naive_start s stop rows c :
  tzinfo s = None → Exists parsable rows →
  count_rows (Some s) stop rows c = Raises TypeError.
Proof.
  intros Hs Hex. revert c. induction Hex as [ts rows Hp|ts rows Hex IH]; intros c.
  - destruct Hp as [d Hd]. cbn [count_rows]. rewrite Hd.
    destruct (_parse_start_ts_aware _ _ Hd) as [o Ho].
    unfold below, dt_lt, dt_compare. by rewrite Ho, Hs.
  - cbn [count_rows]. destruct (_parse_start_ts ts) as [d|] eqn:Hd; [|apply IH].
    destruct (_parse_start_ts_aware _ _ Hd) as [o Ho].
    unfold below, dt_lt, dt_compare. by rewrite Ho, Hs.
Qed.

(** X11. A lower bound that parses to a naive datetime cannot be ordered
    with the aware values of the bookings: as soon as the user has an
    active booking whose [start_ts] parses,
    [count_user_bookings_in_week] raises [TypeError]. *)
Theorem count_user_bookings_naive_bound_raises
    db user_id week_start_ts week_end_ts s b :
  fromisoformat week_start_ts = Some s → tzinfo s = None →
  b ∈ bookings db → active_of user_id b → parsable (b_start_ts b) →
  count_user_bookings_in_week db user_id week_start_ts week_end_ts = Raises TypeError.
Proof.
  intros Hws Hs Hb Ha Hp. unfold count_user_bookings_in_week.
  assert (Exists parsable (b_start_ts <$> filter (active_of user_id) (bookings db)))
    as Hex.
  { apply Exists_exists. exists (b_start_ts b). split; [|done].
    apply list_elem_of_fmap_2. by apply list_elem_of_filter. }
  destruct (b_start_ts <$> filter (active_of user_id) (bookings db)) as [|ts rows];
    [by apply Exists_nil in Hex|].
  rewrite Hws. by apply count_rows_naive_start.
Qed.

End CountEdges.

Section Reschedule.

Implicit Types (db : database) (b : booking).

Lemma retime_id bid date time ts b : b_id (retime bid date time ts b) = b_id b.
Proof. unfold retime. by case_decide. Qed.

Lemma length_filter_id_le (bid : Z) (P : booking → Prop) `{∀ b, Decision (P b)}
    (bs : list booking) :
  NoDup (b_id <$> bs) → (length (filter (λ b, b_id b = bid ∧ P b) bs) ≤ 1)%nat.
Proof.
  induction bs as [|b bs IH]; [simpl; lia|].
  rewrite fmap_cons, NoDup_cons, filter_cons. intros [Hb Hnd].
  destruct (decide (b_id b = bid ∧ P b)) as [[Hid _]|_]; [|by apply IH].
  simpl. rewrite filter_none; [simpl; lia|].
  intros b' Hb' [Hid' _]. apply Hb. rewrite Hid, <- Hid'. by apply list_elem_of_fmap_2.
Qed.

Lemma active_at_retime bid date time ts ts' b :
  active_at ts' (retime bid date time ts b)
  ↔ (b_id b = bid ∧ ts = ts' ∧ b_active b = 1%Z) ∨ (b_id b ≠ bid ∧ active_at ts' b).
Proof. unfold active_at, retime. case_decide; simpl; intuition congruence. Qed.

Lemma count_active_at_retime bid date time ts ts' (bs : list booking) :
  (length (filter (active_at ts') (retime bid date time ts <$> bs))
   ≤ length (filter (λ b, active_at ts' b ∧ b_id b ≠ bid) bs)
     + (if decide (ts' = ts)
        then length (filter (λ b, b_id b = bid ∧ b_active b = 1%Z) bs) else 0))%nat.
Proof.
  induction bs as [|b bs IH]; [simpl; lia|].
  rewrite fmap_cons, !filter_cons.
  destruct (decide (active_at ts' (retime bid date time ts b))) as [H1|H1];
    rewrite active_at_retime in H1;
    destruct (decide (active_at ts' b ∧ b_id b ≠ bid)) as [H2|H2];
    destruct (decide (ts' = ts)) as [H3|H3];
    try destruct (decide (b_id b = bid ∧ b_active b = 1%Z)) as [H4|H4];
    simpl; try lia; exfalso; intuition congruence.
Qed.

(** X12. [update_booking_time] makes no availability check of its own.
    Ids being a primary key, it keeps the slots unique when the caller
    has found the new slot free, or when the triggers of migration 006
    are installed, in which case it raises instead of putting two active
    bookings on one [start_ts]; what it returns has the booking moved and
    the same ids. *)
Theorem update_booking_time_keeps_slot_unique db bid date time ts :
  ids_unique db → slot_unique db →
  is_slot_free db ts = true ∨ slot_triggers db = true →
  match update_booking_time db bid date time ts with
  | Returns db' =>
      slot_unique db' ∧ ids_unique db'
      ∧ bookings db' = retime bid date time ts <$> bookings db
  | Raises _ => slot_triggers db = true ∧ is_slot_free db ts = false
  end.
Proof.
  intros Hpk Huniq Hguard. unfold update_booking_time.
  destruct (slot_triggers db && update_blocked db bid ts) eqn:Hblock.
  - apply andb_true_iff in Hblock as [Htr Hbl]. split; [done|].
    unfold update_blocked in Hbl. apply andb_true_iff in Hbl as [_ Hother].
    apply bool_decide_eq_true, Exists_exists in Hother as (b & Hb & Hts & _ & Ha).
    apply slot_taken_iff. exists b. by split.
  - split; [|split; [|done]].
    + intros ts'. unfold count_active_at; simpl.
      etrans; [apply count_active_at_retime|].
      pose proof (length_filter_and (active_at ts') (λ b, b_id b ≠ bid) (bookings db))
        as Hle1. cbv beta in Hle1.
      pose proof (length_filter_id_le bid (λ b, b_active b = 1%Z) (bookings db) Hpk) as Hle2.
      pose proof (Huniq ts') as Hts'. unfold count_active_at in Hts'.
      destruct (decide (ts' = ts)) as [->|Hne]; [|lia].
      destruct Hguard as [Hfree|Htr].
      * apply Nat.eqb_eq in Hfree. unfold count_active_at in Hfree. lia.
      * rewrite Htr in Hblock. simpl in Hblock. unfold update_blocked in Hblock.
        apply andb_false_iff in Hblock as [Hnone|Hnone];
          apply bool_decide_eq_false in Hnone; rewrite Exists_exists in Hnone.
        -- rewrite (filter_none (λ b, b_id b = bid ∧ b_active b = 1%Z)); [simpl; lia|].
           intros b Hb Hp. apply Hnone. eauto.
        -- rewrite (filter_none (λ b, active_at ts b ∧ b_id b ≠ bid)); [simpl; lia|].
           intros b Hb [[Hts Ha] Hid]. apply Hnone. eauto.
    + unfold ids_unique; simpl. rewrite <- list_fmap_compose.
      erewrite list_fmap_ext; [exact Hpk|].
      intros i b _. simpl. apply retime_id.
Qed.

End Reschedule.

(** ** The store: bulk cancellation, closed dates *)

Section BulkCancel.
Context {L : PyDatetime} {P : PyStrptime}.

Implicit Types (db : database) (b : booking) (r : reminder).

Lemma two_in_filter {A} (Q : A → Prop) `{∀ x, Decision (Q x)} (l : list A) (x y : A) :
  x ∈ l → y ∈ l → x ≠ y → Q x → Q y → (2 ≤ length (filter Q l))%nat.
Proof.
  intros Hx Hy Hne Qx Qy.
  assert (x ∈ filter Q l) as Hfx by (by apply list_elem_of_filter).
  assert (y ∈ filter Q l) as Hfy by (by apply list_elem_of_filter).
  apply list_elem_of_split in Hfx as (l1 & l2 & Heq). rewrite Heq in Hfy |- *.
  rewrite length_app. simpl.
  apply elem_of_app in Hfy as [Hin|[Heq'|Hin]%elem_of_cons]; [|congruence|].
  - destruct l1; [by apply elem_of_nil in Hin|simpl; lia].
  - destruct l2; [by apply elem_of_nil in Hin|simpl; lia].
Qed.

(** X13. On a date it can normalize, [cancel_all_bookings_on_date]
    returns the active bookings of that date and deletes them with their
    reminders: no active booking of the date is left, cancelled bookings
    of the date and bookings of other dates stay (ids being a primary
    key), a second call finds nothing more to delete, and where slots
    were unique every slot of a returned booking is free again. *)
Theorem cancel_all_bookings_on_date_clears db date_str norm :
  normalize_date date_str = Some norm →
  ∃ db',
    cancel_all_bookings_on_date db date_str
    = Returns (filter (active_on norm) (bookings db), db')
    ∧ (∀ b, b ∈ bookings db' → b ∈ bookings db ∧ ¬ active_on norm b)
    ∧ (ids_unique db → ∀ b, b ∈ bookings db → ¬ active_on norm b → b ∈ bookings db')
    ∧ (∀ r, r ∈ reminders db' ↔
            r ∈ reminders db
            ∧ ∀ b, b ∈ bookings db → active_on norm b → b_id b ≠ r_booking_id r)
    ∧ cancel_all_bookings_on_date db' date_str = Returns ([], db')
    ∧ (slot_unique db →
       ∀ b, b ∈ bookings db → active_on norm b → is_slot_free db' (b_start_ts b) = true).
Proof.
  intros Hnorm. unfold cancel_all_bookings_on_date. rewrite Hnorm.
  set (rows := filter (active_on norm) (bookings db)).
  set (db' := delete_by_ids db (b_id <$> rows)).
  assert (∀ b, b ∈ bookings db → active_on norm b → b_id b ∈ b_id <$> rows) as Hids.
  { intros b Hb Ha. apply list_elem_of_fmap_2. by apply list_elem_of_filter. }
  assert (∀ b, b ∈ bookings db' → b ∈ bookings db ∧ ¬ active_on norm b) as Hleft.
  { intros b [Hb Hnot]%elem_of_delete_by_ids_bookings. split; [done|]. eauto. }
  exists db'. split; [done|]. split; [done|]. split; [|split; [|split]].
  - intros Hpk b Hb Hna. apply elem_of_delete_by_ids_bookings. split; [done|].
    intros (b' & Hid & [Ha Hb']%list_elem_of_filter)%list_elem_of_fmap.
    assert (b = b') as <-; [|done].
    apply list_elem_of_lookup in Hb as [i Hi]. apply list_elem_of_lookup in Hb' as [j Hj].
    assert (i = j) as <-; [|congruence].
    eapply NoDup_lookup; [exact Hpk|..].
    + by rewrite list_lookup_fmap, Hi.
    + by rewrite list_lookup_fmap, Hj, Hid.
  - intros r. unfold db'. rewrite elem_of_delete_by_ids_reminders. split.
    + intros [Hr Hnot]. split; [done|]. intros b Hb Ha Hid. apply Hnot.
      rewrite <- Hid. by apply Hids.
    + intros [Hr Hall]. split; [done|].
      intros (b & Hid & [Ha Hb]%list_elem_of_filter)%list_elem_of_fmap.
      by apply (Hall b).
  - rewrite (filter_none (active_on norm) (bookings db')); [done|].
    intros b Hb. by apply Hleft in Hb as [_ ?].
  - intros Huniq b Hb Ha. unfold is_slot_free. apply Nat.eqb_eq.
    unfold count_active_at. apply length_zero_iff_nil, filter_none.
    intros b' [Hb' Hnot]%elem_of_delete_by_ids_bookings Hact.
    assert (b ≠ b') as Hne.
    { intros <-. apply Hnot. by apply Hids. }
    pose proof (two_in_filter (active_at (b_start_ts b)) (bookings db) b b' Hb Hb' Hne
                  (conj eq_refl (proj2 Ha)) Hact) as Htwo.
    specialize (Huniq (b_start_ts b)). unfold count_active_at in Huniq. lia.
Qed.

(** X14. A date that no format reads makes both bulk operations raise
    [ValueError]; whenever [cancel_all_bookings_on_date] would delete a
    reminder that is still unsent, [get_reminders_for_date] on the same
    text returns it, so the caller can remove its jobs first. *)
Theorem get_reminders_for_date_covers_cancel db date_str :
  match cancel_all_bookings_on_date db date_str with
  | Raises e =>
      e = ValueError (String.append "Invalid date format: " date_str)
      ∧ get_reminders_for_date db date_str = Raises e
  | Returns (rows, db') =>
      ∃ rems, get_reminders_for_date db date_str = Returns rems
              ∧ ∀ r, r ∈ reminders db → r ∉ reminders db' → r_sent r = 0 → r ∈ rems
  end.
Proof.
  unfold cancel_all_bookings_on_date, get_reminders_for_date.
  destruct (normalize_date date_str) as [norm|]; [|done].
  eexists. split; [done|]. intros r Hr Hgone Hsent.
  rewrite elem_of_delete_by_ids_reminders in Hgone.
  destruct (decide (r_booking_id r ∈ b_id <$> filter (active_on norm) (bookings db)))
    as [Hin|Hout]; [|exfalso; eauto].
  apply list_elem_of_fmap in Hin as (b & Hid & [[Hdate _] Hb]%list_elem_of_filter).
  apply list_elem_of_bind. exists r. split; [|done].
  apply list_elem_of_bind. exists b. split; [|by apply list_elem_of_filter].
  rewrite decide_True by done. by apply list_elem_of_singleton.
Qed.

End BulkCancel.

Section ClosedDatesMore.

Implicit Types (db : database).

(** X15. The closed-date registry is keyed by the date text: closing a
    date again replaces its reason, and closing or opening one date
    leaves every other date as it was. *)
Theorem closed_dates_keyed_by_date db clock clock' date other reason reason' :
  get_closed_date_reason
    (add_closed_date (add_closed_date db clock date reason) clock' date reason') date
  = Some reason'
  ∧ (other ≠ date →
     is_date_closed (add_closed_date db clock date reason) other = is_date_closed db other
     ∧ get_closed_date_reason (add_closed_date db clock date reason) other
       = get_closed_date_reason db other
     ∧ is_date_closed (remove_closed_date db date) other = is_date_closed db other).
Proof.
  split; [apply get_closed_date_reason_add|]. intros Hne.
  unfold is_date_closed, get_closed_date_reason, add_closed_date, remove_closed_date;
    simpl.
  rewrite lookup_insert_ne, lookup_delete_ne by done. done.
Qed.

End ClosedDatesMore.

(** ** Migrations *)

Section Migration006.

Implicit Types (db : database) (b : booking).

Lemma has_duplicate_slots_iff db :
  has_duplicate_slots db = false ↔ slot_unique db.
Proof.
  unfold has_duplicate_slots. rewrite bool_decide_eq_false, Exists_exists. split.
  - intros Hnone ts.
    destruct (decide (count_active_at db ts ≤ 1)%nat) as [Hle|Hgt]; [done|exfalso].
    destruct (filter (active_at ts) (bookings db)) as [|b l] eqn:Hf.
    { unfold count_active_at in Hgt. rewrite Hf in Hgt. simpl in Hgt. lia. }
    assert (b ∈ filter (active_at ts) (bookings db)) as Hb by (rewrite Hf; left).
    apply list_elem_of_filter in Hb as [[Hts Ha] Hb].
    apply Hnone. exists b. split; [done|]. split; [done|]. rewrite Hts. lia.
  - intros Huniq (b & Hb & Ha & Hgt). specialize (Huniq (b_start_ts b)). lia.
Qed.

(** X16. Migration 006 installs its triggers exactly when no [start_ts]
    has two active bookings, and never touches a row; in a state with two
    it changes nothing. Once the triggers are installed, the insert alone
    keeps the slots unique, whatever the caller checked. *)
Theorem migration_006_guards_inserts db :
  bookings (migration_006_add_unique_constraint_start_ts db) = bookings db
  ∧ (slot_unique db →
     slot_triggers (migration_006_add_unique_constraint_start_ts db) = true
     ∧ ∀ user_id date time start_ts branch purpose created,
         slot_unique
           (state_after (migration_006_add_unique_constraint_start_ts db)
              (insert_booking (migration_006_add_unique_constraint_start_ts db)
                              user_id date time start_ts branch purpose created)))
  ∧ (¬ slot_unique db → migration_006_add_unique_constraint_start_ts db = db).
Proof.
  unfold migration_006_add_unique_constraint_start_ts.
  destruct (has_duplicate_slots db) eqn:Hd.
  - assert (¬ slot_unique db) as Hn.
    { intros Hu%has_duplicate_slots_iff. congruence. }
    split; [done|]. split; [done|done].
  - apply has_duplicate_slots_iff in Hd.
    split; [done|]. split; [|done]. intros _. split; [done|]. intros.
    apply insert_booking_under_triggers; [done|].
    intros ts. exact (Hd ts).
Qed.

End Migration006.

Section RunnerMore.
Import Migrations.
Context {S : Type}.

Implicit Types (M : list (string * migrate_func S)) (st : store S).

Lemma insert_or_ignore_member name names :
  name ∈ names → insert_or_ignore name names = names.
Proof. intros Hin. unfold insert_or_ignore. by rewrite decide_True. Qed.

Lemma run_pending_all_recorded (pending : list (string * migrate_func S))
    (s : S) (names : list string) :
  raised (run_pending pending (Store s (Some names))) = None →
  ∃ s' names',
    final (run_pending pending (Store s (Some names))) = Store s' (Some names')
    ∧ (∀ n, n ∈ names → n ∈ names')
    ∧ (∀ m, m ∈ pending → m.1 ∈ names').
Proof.
  revert s names. induction pending as [|[name migrate] pending IH]; intros s names.
  - simpl. intros _. exists s, names. split; [done|]. split; [done|].
    by intros m ?%elem_of_nil.
  - simpl. destruct (migrate s) as [s1 [e|]] eqn:Hm; simpl; [done|].
    unfold mark_migration_applied; simpl. intros Hr.
    destruct (IH s1 (insert_or_ignore name names) Hr) as (s' & names' & Hf & Hold & Hnew).
    exists s', names'. split; [done|].
    assert (∀ n, n ∈ names → n ∈ insert_or_ignore name names) as Hsub.
    { intros n Hn. unfold insert_or_ignore. case_decide; [done|].
      apply elem_of_app. by left. }
    assert (name ∈ insert_or_ignore name names) as Hin.
    { unfold insert_or_ignore. case_decide; [done|].
      apply elem_of_app. right. by apply list_elem_of_singleton. }
    split; [by eauto|].
    intros m [->|Hm']%elem_of_cons; [by apply Hold|by apply Hnew].
Qed.

(** X17. A run of [run_all_migrations] that does not raise leaves every
    registered migration recorded, so the next run finds nothing pending:
    it calls no migration and leaves the store as it is. *)
Theorem run_all_migrations_rerun_is_noop M st :
  raised (run_all_migrations M st) = None →
  (∀ m, m ∈ M → m.1 ∈ applied_of (final (run_all_migrations M st)))
  ∧ run_all_migrations M (final (run_all_migrations M st))
    = Run (final (run_all_migrations M st)) [AllApplied] None.
Proof.
  intros Hr.
  assert (∃ s names, final (run_all_migrations M st) = Store s (Some names)
                     ∧ ∀ m, m ∈ M → m.1 ∈ names) as (s & names & Hf & Hall).
  { unfold run_all_migrations in *.
    destruct (get_applied_migrations st) as [applied st0] eqn:Hget.
    assert (∃ s0, st0 = Store s0 (Some applied)) as [s0 ->].
    { unfold get_applied_migrations in Hget.
      destruct st as [s0 [t|]]; simpl in Hget; injection Hget as <- <-; eauto. }
    destruct (pending_of M applied) as [|m0 pend] eqn:Hpend.
    - simpl. exists s0, applied. split; [done|]. intros m Hm.
      destruct (decide (m.1 ∈ applied)) as [Hin|Hout]; [done|exfalso].
      assert (m ∈ pending_of M applied) as Hp by (by apply list_elem_of_filter).
      rewrite Hpend in Hp. by apply elem_of_nil in Hp.
    - rewrite <- Hpend in *.
      destruct (run_pending_all_recorded _ _ _ Hr) as (s' & names' & Hf & Hold & Hnew).
      exists s', names'. split; [done|]. intros m Hm.
      destruct (decide (m.1 ∈ applied)) as [Hin|Hout]; [by apply Hold|].
      apply Hnew. by apply list_elem_of_filter. }
  split.
  - intros m Hm. rewrite Hf. by apply Hall.
  - rewrite Hf. unfold run_all_migrations, get_applied_migrations; simpl.
    assert (pending_of M names = []) as ->; [|done].
    apply filter_none. intros m Hm Hnot. apply Hnot. by apply Hall.
Qed.

End RunnerMore.
